(** * CADit embed example: the postMessage protocol of the host page

    A shallow embedding of [script.js] (module [Script]) and of the second,
    smaller copy of the script that ships with the repository (module
    [Part000]), followed by the properties of the message exchange:
    origin gate, outbound addressing, handshake, export request, artifact
    store and the codec. *)

From Stdlib Require Import Bool List String Ascii NArith ZArith Lia PeanoNat.
From Stdlib Require Import Floats Uint63 DecimalString.
Import ListNotations.
Set Warnings "-register-all".
Local Open Scope string_scope.
Local Open Scope list_scope.

(** ** JavaScript values

    The values that reach the script through [event.data], as the structured
    clone of a message delivers them: primitives, BigInt among them, Blobs,
    arrays with their named properties, and plain objects, cyclic ones
    included.  Objects keep their keys in insertion order, hence an
    association list.  A value carries no function: what the clone delivers
    under a key like [toString] is data.  The other objects a clone can
    hold (dates, maps, sets, buffers, typed arrays, errors, boxed
    primitives) are, for what the script does with a value (test it, read a
    property, compare it with a string literal, print it, stringify it),
    objects with the properties they show to [JSON.stringify]; a boxed
    BigInt is a [VBigInt] other than [0n].

    A cycle is written with [VBack]: [VBack n] stands for the container [n]
    levels up, [VBack 0] being the array or object that holds the reference.
    So [VObj [("self", VBack 0)]] is the object [o] with [o.self === o].  In
    a value that stands alone no [VBack] points above its root. *)
Module JS.

Record Blob := mkBlob {
  blob_bytes : list Byte.byte;
  blob_type : string
}.

Definition blob_size (b : Blob) : N := N.of_nat (List.length (blob_bytes b)).

Inductive value :=
| VUndefined
| VNull
| VBool (b : bool)
| VNum (f : float)
| VBigInt (z : Z)
| VStr (s : string)
| VBlob (b : Blob)
| VArr (items : list value) (named : list (string * value))
| VObj (fields : list (string * value))
| VBack (up : nat).

(** ToBoolean: [undefined], [null], [false], [0], [-0], [NaN], [0n] and the
    empty string are falsy, everything else (every object, every Blob) is
    truthy. *)
Definition truthy (v : value) : bool :=
  match v with
  | VUndefined | VNull => false
  | VBool b => b
  | VNum f => negb (PrimFloat.is_zero f || PrimFloat.is_nan f)
  | VBigInt z => negb (Z.eqb z 0)
  | VStr s => negb (s =? "")
  | VBlob _ | VArr _ _ | VObj _ | VBack _ => true
  end.

Definition nullish (v : value) : bool :=
  match v with
  | VUndefined | VNull => true
  | _ => false
  end.

Fixpoint lookup (k : string) (fields : list (string * value)) : value :=
  match fields with
  | [] => VUndefined
  | (k', v) :: rest => if k' =? k then v else lookup k rest
  end.

(** Whether the key is an own property, whatever its value. *)
Definition has_key (k : string) (fields : list (string * value)) : bool :=
  existsb (fun kv => fst kv =? k) fields.

(** Decimal rendering of a non-negative integer, as a template literal
    prints it and as an array names its indices. *)
Definition dec (n : N) : string := NilEmpty.string_of_uint (N.to_uint n).

(** The own enumerable properties of an array: its elements under their
    indices, then its named properties. *)
Fixpoint indexed (i : N) (items : list value) : list (string * value) :=
  match items with
  | [] => []
  | x :: rest => (dec i, x) :: indexed (N.succ i) rest
  end.

Definition array_props (items : list value) (named : list (string * value))
  : list (string * value) :=
  indexed 0 items ++ named.

(** Moving a value one container down ([lift]) and taking a value out of the
    container [p] that holds it ([subst p 0]): the references that leave the
    value are renumbered, and those to [p] are replaced by [p] itself. *)
Fixpoint lift (c : nat) (v : value) : value :=
  match v with
  | VBack n => VBack (if Nat.leb c n then S n else n)
  | VArr items named =>
      VArr (map (lift (S c)) items)
           (map (fun kv => (fst kv, lift (S c) (snd kv))) named)
  | VObj fields => VObj (map (fun kv => (fst kv, lift (S c) (snd kv))) fields)
  | _ => v
  end.

Fixpoint lift_by (k : nat) (v : value) : value :=
  match k with
  | O => v
  | S k' => lift 0 (lift_by k' v)
  end.

Fixpoint subst (p : value) (d : nat) (v : value) : value :=
  match v with
  | VBack n =>
      match Nat.compare n d with
      | Lt => VBack n
      | Eq => lift_by d p
      | Gt => VBack (Nat.pred n)
      end
  | VArr items named =>
      VArr (map (subst p (S d)) items)
           (map (fun kv => (fst kv, subst p (S d) (snd kv))) named)
  | VObj fields => VObj (map (fun kv => (fst kv, subst p (S d) (snd kv))) fields)
  | _ => v
  end.

(** A Blob size as a JavaScript number (exact below 2^53). *)
Definition num_of_N (n : N) : float :=
  PrimFloat.of_uint63 (Uint63.of_Z (Z.of_N n)).

(** The own enumerable properties of a value. *)
Definition own_props (v : value) : list (string * value) :=
  match v with
  | VObj fields => fields
  | VArr items named => array_props items named
  | _ => []
  end.

(** [v.k] on a value that is neither [null] nor [undefined]: the own
    enumerable properties of plain objects and arrays, and the two data
    properties of a Blob.  The script reads the keys [type], [payload],
    [blob], [filename], [version] and [size] only, none of which a string, a
    number, a BigInt, a boolean or an array inherits. *)
Definition get (v : value) (k : string) : value :=
  match v with
  | VObj _ | VArr _ _ => subst v 0 (lookup k (own_props v))
  | VBlob b =>
      if k =? "type" then VStr (blob_type b)
      else if k =? "size" then VNum (num_of_N (blob_size b))
      else VUndefined
  | _ => VUndefined
  end.

(** [v?.k] *)
Definition opt_get (v : value) (k : string) : value :=
  if nullish v then VUndefined else get v k.

(** [a || b] *)
Definition js_or (a b : value) : value := if truthy a then a else b.

(** [v === 'literal'] *)
Definition is_str (v : value) (lit : string) : bool :=
  match v with
  | VStr s => s =? lit
  | _ => false
  end.

(** [{ ...obj, k: v }] on the properties of [obj]: an existing key keeps its
    place and takes the new value, a new key goes last. *)
Fixpoint spread_with (fields : list (string * value)) (k : string) (v : value)
  : list (string * value) :=
  match fields with
  | [] => [(k, v)]
  | (k', v') :: rest =>
      if k' =? k then (k', v) :: rest else (k', v') :: spread_with rest k v
  end.

(** The properties of [v] as a new object literal [{ ...v }] holds them:
    each property value itself, one container down. *)
Definition spread_props (v : value) : list (string * value) :=
  map (fun kv => (fst kv, lift 0 (subst v 0 (snd kv)))) (own_props v).

(** ToString, as a template literal and a DOM string attribute apply it:
    whether it returns.  An object or array with an own [toString] property
    has no callable [toString] (a message carries no function) and the
    inherited [valueOf] returns the object, so the conversion is a TypeError.
    Otherwise an object prints as [[object Object]]; an array is joined,
    which converts each element that is not [null] or [undefined] (the
    engines print an array met again inside itself as the empty string),
    unless an own [join] property hides the method and the array prints as
    [[object Array]]. *)
Fixpoint to_string_ok (v : value) : bool :=
  match v with
  | VObj fields => negb (has_key "toString" fields)
  | VArr items named =>
      if has_key "toString" named then false
      else if has_key "join" named then true
      else forallb to_string_ok items
  | _ => true
  end.

(** [JSON.stringify], whether it returns: a BigInt and an object or array
    met again inside itself are TypeErrors; of an array the elements are
    written, of an object its properties; a Blob prints as [{}]. *)
Fixpoint json_ok (v : value) : bool :=
  match v with
  | VBigInt _ | VBack _ => false
  | VArr items _ => forallb json_ok items
  | VObj fields => forallb (fun kv => json_ok (snd kv)) fields
  | _ => true
  end.

(** A template literal: its literal chunks and the values interpolated into
    it, each standing for its ToString; [InterpRoundDiv v d] stands for
    [${Math.round(v / d)}]. *)
Inductive piece :=
| Lit (s : string)
| Interp (v : value)
| InterpRoundDiv (num : value) (den : N).

Definition text := list piece.

Inductive exn :=
| TypeError (msg : string).

Record MessageEvent := mkEvent {
  origin : string;
  data : value
}.

Inductive level := LLog | LWarn | LError.

Inductive carg :=
| CText (t : text)
| CVal (v : value).

Record ConsoleEntry := mkConsole {
  con_level : level;
  con_args : list carg
}.

(** One [div.log-entry] of the event log panel (the time stamp is left
    out).  [log_data] is [None] when the data is falsy and nothing is
    printed, and otherwise the value handed to [JSON.stringify]. *)
Record LogEntry := mkLog {
  log_direction : string;
  log_label : string;
  log_message : value;
  log_data : option value
}.

(** What a call of [postMessage(message, targetOrigin)] on the iframe's
    window hands over. *)
Record Posted := mkPosted {
  message : value;
  targetOrigin : string
}.

(** [const message = { type, payload }] of [sendMessage]: a new object that
    holds the two values. *)
Definition encode (type payload : value) : value :=
  VObj [("type", lift 0 type); ("payload", lift 0 payload)].

(** [const { type, payload } = event.data]: a TypeError on [null] and
    [undefined] ([None]), the two properties otherwise. *)
Definition destructure (d : value) : option (value * value) :=
  if nullish d then None else Some (get d "type", get d "payload").

Inductive decoded :=
| Message (type payload : value)
| MissingTag
| NoData.

(** The destructuring followed by the [if (!type) return] guard of
    [handleMessage]. *)
Definition decode (d : value) : decoded :=
  match destructure d with
  | None => NoData
  | Some (type, payload) =>
      if truthy type then Message type payload else MissingTag
  end.

End JS.
Import JS.

(** ** Handlers as state transformers that may throw

    A handler runs to completion on the page state; a thrown exception
    leaves the state as mutated up to the throw. *)
Section Monad.
Context {S : Type}.

Inductive Result (A : Type) :=
| Ok (a : A) (s : S)
| Throw (e : exn) (s : S).
Arguments Ok {A} a s.
Arguments Throw {A} e s.

Definition M (A : Type) := S -> Result A.

Definition ret {A} (a : A) : M A := fun s => Ok a s.

Definition bind {A B} (c : M A) (k : A -> M B) : M B :=
  fun s => match c s with
           | Ok a s' => k a s'
           | Throw e s' => Throw e s'
           end.

Definition throw {A} (e : exn) : M A := fun s => Throw e s.
Definition gets {A} (f : S -> A) : M A := fun s => Ok (f s) s.
Definition modify (f : S -> S) : M unit := fun s => Ok tt (f s).

(** The conversion of a value to a string, where a template literal
    interpolates it or a DOM string attribute takes it. *)
Definition render (v : value) : M unit :=
  if to_string_ok v then ret tt
  else throw (TypeError "Cannot convert object to primitive value").

(** [JSON.stringify(v, null, 2)]. *)
Definition stringify (v : value) : M unit :=
  if json_ok v then ret tt
  else throw (TypeError "JSON.stringify: a BigInt or a circular structure").

(** The state a handler leaves behind, returned or thrown. *)
Definition final {A} (r : Result A) : S :=
  match r with
  | Ok _ s => s
  | Throw _ s => s
  end.

Definition returns {A} (r : Result A) : bool :=
  match r with
  | Ok _ _ => true
  | Throw _ _ => false
  end.
End Monad.
Arguments Result : clear implicits.
Arguments M : clear implicits.
Arguments Ok {S A} a s.
Arguments Throw {S A} e s.

Declare Scope js_scope.
Delimit Scope js_scope with js.
Notation "x <- c ;; k" := (bind c (fun x => k))
  (at level 61, c at next level, right associativity) : js_scope.
Notation "c ;; k" := (bind c (fun _ => k))
  (at level 61, right associativity) : js_scope.
Local Open Scope js_scope.

(** ** script.js *)
Module Script.

Definition CADIT_ORIGIN : string := "https://app.cadit.app".
Definition PARTNER_NAME : string := "MyApp".

(** The module-level variables of the script ([isReady], [currentBlob],
    [currentFilename], and [renderer]: whether the viewer has been built),
    the parts of the page it reads and writes ([contentWindow]: whether
    [caditFrame.contentWindow] is there; the [disabled] flag of the two
    buttons; [statusText.textContent]; the [display] style of the preview;
    the lines of the event log, newest first), and what it has handed to the
    browser so far, oldest first: messages posted to the iframe, console
    lines, alerts, blobs given to the STL viewer and downloads started. *)
Record State := mkState {
  isReady : bool;
  currentBlob : value;
  currentFilename : value;
  renderer : bool;
  contentWindow : bool;
  getStlBtn_disabled : bool;
  downloadBtn_disabled : bool;
  statusText : text;
  previewContainer_display : string;
  eventLog : list LogEntry;
  posted : list Posted;
  console : list ConsoleEntry;
  alerts : list string;
  loaded : list Blob;
  downloads : list (Blob * value)
}.

Definition set_isReady (x : bool) (s : State) : State :=
  mkState x (currentBlob s) (currentFilename s) (renderer s) (contentWindow s)
    (getStlBtn_disabled s) (downloadBtn_disabled s) (statusText s)
    (previewContainer_display s) (eventLog s) (posted s) (console s)
    (alerts s) (loaded s) (downloads s).

Definition set_currentBlob (x : value) (s : State) : State :=
  mkState (isReady s) x (currentFilename s) (renderer s) (contentWindow s)
    (getStlBtn_disabled s) (downloadBtn_disabled s) (statusText s)
    (previewContainer_display s) (eventLog s) (posted s) (console s)
    (alerts s) (loaded s) (downloads s).

Definition set_currentFilename (x : value) (s : State) : State :=
  mkState (isReady s) (currentBlob s) x (renderer s) (contentWindow s)
    (getStlBtn_disabled s) (downloadBtn_disabled s) (statusText s)
    (previewContainer_display s) (eventLog s) (posted s) (console s)
    (alerts s) (loaded s) (downloads s).

Definition set_renderer (x : bool) (s : State) : State :=
  mkState (isReady s) (currentBlob s) (currentFilename s) x (contentWindow s)
    (getStlBtn_disabled s) (downloadBtn_disabled s) (statusText s)
    (previewContainer_display s) (eventLog s) (posted s) (console s)
    (alerts s) (loaded s) (downloads s).

Definition set_contentWindow (x : bool) (s : State) : State :=
  mkState (isReady s) (currentBlob s) (currentFilename s) (renderer s) x
    (getStlBtn_disabled s) (downloadBtn_disabled s) (statusText s)
    (previewContainer_display s) (eventLog s) (posted s) (console s)
    (alerts s) (loaded s) (downloads s).

Definition set_getStlBtn_disabled (x : bool) (s : State) : State :=
  mkState (isReady s) (currentBlob s) (currentFilename s) (renderer s)
    (contentWindow s) x (downloadBtn_disabled s) (statusText s)
    (previewContainer_display s) (eventLog s) (posted s) (console s)
    (alerts s) (loaded s) (downloads s).

Definition set_downloadBtn_disabled (x : bool) (s : State) : State :=
  mkState (isReady s) (currentBlob s) (currentFilename s) (renderer s)
    (contentWindow s) (getStlBtn_disabled s) x (statusText s)
    (previewContainer_display s) (eventLog s) (posted s) (console s)
    (alerts s) (loaded s) (downloads s).

Definition set_statusText (x : text) (s : State) : State :=
  mkState (isReady s) (currentBlob s) (currentFilename s) (renderer s)
    (contentWindow s) (getStlBtn_disabled s) (downloadBtn_disabled s) x
    (previewContainer_display s) (eventLog s) (posted s) (console s)
    (alerts s) (loaded s) (downloads s).

Definition set_previewContainer_display (x : string) (s : State) : State :=
  mkState (isReady s) (currentBlob s) (currentFilename s) (renderer s)
    (contentWindow s) (getStlBtn_disabled s) (downloadBtn_disabled s)
    (statusText s) x (eventLog s) (posted s) (console s)
    (alerts s) (loaded s) (downloads s).

Definition set_eventLog (x : list LogEntry) (s : State) : State :=
  mkState (isReady s) (currentBlob s) (currentFilename s) (renderer s)
    (contentWindow s) (getStlBtn_disabled s) (downloadBtn_disabled s)
    (statusText s) (previewContainer_display s) x (posted s) (console s)
    (alerts s) (loaded s) (downloads s).

Definition set_posted (x : list Posted) (s : State) : State :=
  mkState (isReady s) (currentBlob s) (currentFilename s) (renderer s)
    (contentWindow s) (getStlBtn_disabled s) (downloadBtn_disabled s)
    (statusText s) (previewContainer_display s) (eventLog s) x (console s)
    (alerts s) (loaded s) (downloads s).

Definition set_console (x : list ConsoleEntry) (s : State) : State :=
  mkState (isReady s) (currentBlob s) (currentFilename s) (renderer s)
    (contentWindow s) (getStlBtn_disabled s) (downloadBtn_disabled s)
    (statusText s) (previewContainer_display s) (eventLog s) (posted s) x
    (alerts s) (loaded s) (downloads s).

Definition set_alerts (x : list string) (s : State) : State :=
  mkState (isReady s) (currentBlob s) (currentFilename s) (renderer s)
    (contentWindow s) (getStlBtn_disabled s) (downloadBtn_disabled s)
    (statusText s) (previewContainer_display s) (eventLog s) (posted s)
    (console s) x (loaded s) (downloads s).

Definition set_loaded (x : list Blob) (s : State) : State :=
  mkState (isReady s) (currentBlob s) (currentFilename s) (renderer s)
    (contentWindow s) (getStlBtn_disabled s) (downloadBtn_disabled s)
    (statusText s) (previewContainer_display s) (eventLog s) (posted s)
    (console s) (alerts s) x (downloads s).

Definition set_downloads (x : list (Blob * value)) (s : State) : State :=
  mkState (isReady s) (currentBlob s) (currentFilename s) (renderer s)
    (contentWindow s) (getStlBtn_disabled s) (downloadBtn_disabled s)
    (statusText s) (previewContainer_display s) (eventLog s) (posted s)
    (console s) (alerts s) (loaded s) x.

(** Browser calls. *)
Definition console_out (l : level) (args : list carg) : M State unit :=
  modify (fun s => set_console (console s ++ [mkConsole l args]) s).

Definition alert (msg : string) : M State unit :=
  modify (fun s => set_alerts (alerts s ++ [msg]) s).

Definition postMessage (msg : value) (target : string) : M State unit :=
  modify (fun s => set_posted (posted s ++ [mkPosted msg target]) s).

(** [initViewer] (lines 35-85): builds the three.js scene and sets
    [renderer]. *)
Definition initViewer : M State unit :=
  modify (set_renderer true).

(** [loadSTL(blob)] (lines 90-133): [blob.arrayBuffer()] is a TypeError on
    anything that is not a Blob (no other value of a message has that
    method); the parsing and the scene update happen later, in the promise
    callback. *)
Definition loadSTL (blob : value) : M State unit :=
  match blob with
  | VBlob b => modify (fun s => set_loaded (loaded s ++ [b]) s)
  | _ => throw (TypeError "blob.arrayBuffer is not a function")
  end.

(** The [displayData] of [logEvent] (lines 144-147): where the data has a
    Blob under [blob] (an object or an array does), a new object with the
    properties of the data and a line of metadata in its place. *)
Definition displayData (d : value) : value :=
  if truthy d then
    match get d "blob" with
    | VBlob b =>
        VObj (spread_with (spread_props d) "blob"
                (VStr ("Blob(" ++ dec (blob_size b) ++ " bytes, "
                         ++ blob_type b ++ ")")))
    | _ => d
    end
  else d.

(** [logEvent] (lines 138-159): a new entry on top of the log panel.  The
    data is stringified (line 149) and the type interpolated into the markup
    of the entry (line 154) before the entry is inserted; either may
    throw. *)
Definition logEvent (type : value) (direction : string) (d : value)
  : M State unit :=
  let shown := displayData d in
  let entry :=
    mkLog direction (if direction =? "received" then "RECV" else "SENT") type
      (if truthy shown then Some shown else None) in
  (if truthy shown then stringify shown else ret tt) ;;
  render type ;;
  modify (fun s => set_eventLog (entry :: eventLog s) s).

(** [sendMessage] (lines 164-173). *)
Definition sendMessage (type : value) (payload : value) : M State unit :=
  cw <- gets contentWindow ;;
  if negb cw then
    console_out LError [CText [Lit "CADit iframe not available"]]
  else
    postMessage (encode type payload) CADIT_ORIGIN ;;
    logEvent type "sent" payload.

Definition init_payload : value :=
  VObj [("partnerName", VStr PARTNER_NAME);
        ("features", VArr [VStr "export"] [])].

(** [sendInit] (lines 274-280). *)
Definition sendInit : M State unit :=
  sendMessage (VStr "init") init_payload ;;
  modify (set_statusText [Lit ("Initialized with partner name: " ++ PARTNER_NAME)]).

(** [handleReady] (lines 212-219): the flag is set before the version is
    interpolated into the status line (line 214). *)
Definition handleReady (payload : value) : M State unit :=
  modify (set_isReady true) ;;
  render (js_or (opt_get payload "version") (VStr "unknown")) ;;
  modify (set_statusText
            [Lit "CADit ready (v";
             Interp (js_or (opt_get payload "version") (VStr "unknown"));
             Lit ")"]) ;;
  modify (set_getStlBtn_disabled false) ;;
  sendInit.

(** [handleExportStl] (lines 224-248): the filename is interpolated into
    the status line (line 247) after the artifact is stored and loaded. *)
Definition handleExportStl (payload : value) : M State unit :=
  if negb (truthy (opt_get payload "blob")) then
    console_out LError [CText [Lit "No blob in export-stl payload"]] ;;
    modify (set_statusText [Lit "Error: No STL data received"])
  else
    modify (set_currentBlob (get payload "blob")) ;;
    modify (set_currentFilename
              (js_or (get payload "filename") (VStr "design.stl"))) ;;
    modify (set_downloadBtn_disabled false) ;;
    modify (set_previewContainer_display "block") ;;
    r <- gets renderer ;;
    (if negb r then initViewer else ret tt) ;;
    loadSTL (get payload "blob") ;;
    fn <- gets currentFilename ;;
    render fn ;;
    modify (set_statusText
              [Lit "Received: "; Interp fn; Lit " (";
               InterpRoundDiv (get (get payload "blob") "size") 1024;
               Lit " KB)"]).

(** [handleMessage] (lines 178-207): the type is interpolated into the
    console line (line 194) before anything is written. *)
Definition handleMessage (event : MessageEvent) : M State unit :=
  if negb (origin event =? CADIT_ORIGIN) then
    if truthy (data event) && truthy (get (data event) "type") then
      console_out LLog
        [CText [Lit ("Ignored message from origin: " ++ origin event
                       ++ " (expected: " ++ CADIT_ORIGIN ++ ")")]]
    else ret tt
  else
    match decode (data event) with
    | NoData =>
        throw (TypeError "Cannot destructure property 'type' of 'event.data'")
    | MissingTag => ret tt
    | Message type payload =>
        render type ;;
        console_out LLog
          [CText [Lit "Received message: "; Interp type]; CVal payload] ;;
        logEvent type "received" payload ;;
        if is_str type "ready" then handleReady payload
        else if is_str type "export-stl" then handleExportStl payload
        else console_out LLog [CText [Lit "Unknown message type:"]; CVal type]
    end.

(** [downloadStl] (lines 253-269).  [URL.createObjectURL(blob)] is a
    TypeError on anything that is not a Blob; the filename is converted to a
    string when it is assigned to [a.download] (line 262), before the anchor
    is clicked. *)
Definition downloadStl : M State unit :=
  cb <- gets currentBlob ;;
  if negb (truthy cb) then
    alert "No STL file available. Request an export first."
  else
    match cb with
    | VBlob b =>
        fn <- gets currentFilename ;;
        render fn ;;
        modify (fun s => set_downloads (downloads s ++ [(b, fn)]) s) ;;
        modify (set_statusText [Lit "Downloaded: "; Interp fn])
    | _ => throw (TypeError "Failed to execute 'createObjectURL' on 'URL'")
    end.

(** [requestStl] (lines 285-293). *)
Definition requestStl : M State unit :=
  r <- gets isReady ;;
  if negb r then
    alert "CADit is not ready yet. Please wait for it to load."
  else
    sendMessage (VStr "get-stl") VNull ;;
    modify (set_statusText [Lit "Requesting STL export..."]).

(** The listeners registered at the end of the script (lines 296-298), and
    the one change
    of the page the script looks at without making it: the iframe gaining or
    losing its window. *)
Inductive Trigger :=
| Receive (event : MessageEvent)
| ClickGetStl
| ClickDownload
| Frame (present : bool).

Definition listener (t : Trigger) : M State unit :=
  match t with
  | Receive event => handleMessage event
  | ClickGetStl => requestStl
  | ClickDownload => downloadStl
  | Frame present => modify (set_contentWindow present)
  end.

(** An exception that escapes a listener ends that listener only. *)
Definition step (s : State) (t : Trigger) : State := final (listener t s).

Definition run (ts : list Trigger) (s : State) : State := fold_left step ts s.

(** The state once the script has been evaluated on a page (its markup is
    not part of the script, hence the parameters): the variables as declared
    in lines 25-30, nothing handed to the browser yet, and the first line of
    the event log (lines 301-303). *)
Definition page_loaded (cw getStl_off download_off : bool) (status : text)
  (display : string) (log : list LogEntry) : State :=
  final (logEvent (VStr "page-loaded") "sent"
           (VObj [("info", VStr "Waiting for CADit to send ready message...")])
           (mkState false VNull VNull false cw getStl_off download_off status
              display log [] [] [] [] [])).

(** *** Vocabulary of the statements below *)

(** A message event from the trusted origin whose [type] is the string
    [tag]. *)
Definition tagged (tag : string) (ev : MessageEvent) : Prop :=
  origin ev = CADIT_ORIGIN /\ get (data ev) "type" = VStr tag.

Definition payload_of (ev : MessageEvent) : value := get (data ev) "payload".

Definition init_message : Posted :=
  mkPosted (encode (VStr "init") init_payload) CADIT_ORIGIN.

Definition get_stl_message : Posted :=
  mkPosted (encode (VStr "get-stl") VNull) CADIT_ORIGIN.

(** A posted message that names the trusted origin as its target, and not
    the wildcard. *)
Definition addressed (p : Posted) : Prop :=
  targetOrigin p = CADIT_ORIGIN /\ targetOrigin p <> "*".

(** The session of the spec: the ready flag and the last artifact. *)
Definition session (s : State) : bool * value * value :=
  (isReady s, currentBlob s, currentFilename s).

(** Everything but the two logs and the messages posted so far. *)
Definition view (s : State) :=
  (session s, renderer s, contentWindow s, getStlBtn_disabled s,
   downloadBtn_disabled s, statusText s, previewContainer_display s,
   alerts s, loaded s, downloads s).

(** An artifact is stored: every assignment to [currentBlob] and
    [currentFilename] stores a truthy value. *)
Definition has_artifact (s : State) : Prop :=
  truthy (currentBlob s) = true /\ truthy (currentFilename s) = true.

(** Whether [logEvent] can write the data: it is falsy and not stringified,
    or [JSON.stringify] returns on what is displayed for it. *)
Definition loggable (d : value) : bool :=
  negb (truthy (displayData d)) || json_ok (displayData d).

(** [payload?.version || 'unknown'] and [payload.filename || 'design.stl']. *)
Definition version_of (payload : value) : value :=
  js_or (opt_get payload "version") (VStr "unknown").

Definition filename_of (payload : value) : value :=
  js_or (get payload "filename") (VStr "design.stl").

(** A ready message from the trusted origin that [handleMessage] and
    [handleReady] take to their end: its payload can be logged and its
    version converted to a string. *)
Definition ready_message (ev : MessageEvent) : Prop :=
  tagged "ready" ev /\
  loggable (get (data ev) "payload") = true /\
  to_string_ok (version_of (get (data ev) "payload")) = true.


Definition received_entry (ev : MessageEvent) : LogEntry :=
  let shown := displayData (payload_of ev) in
  mkLog "received" "RECV" (get (data ev) "type")
    (if truthy shown then Some shown else None).

Definition received_line (ev : MessageEvent) : ConsoleEntry :=
  mkConsole LLog
    [CText [Lit "Received message: "; Interp (get (data ev) "type")];
     CVal (payload_of ev)].

Definition init_status : text :=
  [Lit ("Initialized with partner name: " ++ PARTNER_NAME)].

Definition ready_status (version : value) : text :=
  [Lit "CADit ready (v"; Interp version; Lit ")"].

(** A ready message as the embedded application sends it. *)
Definition ready_event (version : string) : MessageEvent :=
  mkEvent CADIT_ORIGIN
    (encode (VStr "ready") (VObj [("version", VStr version)])).

Definition export_event (payload : value) : MessageEvent :=
  mkEvent CADIT_ORIGIN (encode (VStr "export-stl") payload).

(** The page of the examples: every element present, both buttons disabled
    as long as nothing has arrived. *)
Definition fresh_page : State :=
  page_loaded true true true [Lit "Waiting for CADit..."] "none" [].

End Script.

(** ** The second copy of the script (src/unnamed/part_000)

    No viewer and no stored artifact: an export is downloaded at once; the
    init message can also be sent from a button. *)
Module Part000.

Definition CADIT_ORIGIN : string := "https://app.cadit.com".
Definition PARTNER_NAME : string := "MyApp".

Record State := mkState {
  isReady : bool;
  contentWindow : bool;
  getStlBtn_disabled : bool;
  statusText : text;
  eventLog : list LogEntry;
  posted : list Posted;
  console : list ConsoleEntry;
  alerts : list string;
  downloads : list (Blob * value)
}.

Definition set_isReady (x : bool) (s : State) : State :=
  mkState x (contentWindow s) (getStlBtn_disabled s) (statusText s)
    (eventLog s) (posted s) (console s) (alerts s) (downloads s).

Definition set_contentWindow (x : bool) (s : State) : State :=
  mkState (isReady s) x (getStlBtn_disabled s) (statusText s)
    (eventLog s) (posted s) (console s) (alerts s) (downloads s).

Definition set_getStlBtn_disabled (x : bool) (s : State) : State :=
  mkState (isReady s) (contentWindow s) x (statusText s)
    (eventLog s) (posted s) (console s) (alerts s) (downloads s).

Definition set_statusText (x : text) (s : State) : State :=
  mkState (isReady s) (contentWindow s) (getStlBtn_disabled s) x
    (eventLog s) (posted s) (console s) (alerts s) (downloads s).

Definition set_eventLog (x : list LogEntry) (s : State) : State :=
  mkState (isReady s) (contentWindow s) (getStlBtn_disabled s) (statusText s)
    x (posted s) (console s) (alerts s) (downloads s).

Definition set_posted (x : list Posted) (s : State) : State :=
  mkState (isReady s) (contentWindow s) (getStlBtn_disabled s) (statusText s)
    (eventLog s) x (console s) (alerts s) (downloads s).

Definition set_console (x : list ConsoleEntry) (s : State) : State :=
  mkState (isReady s) (contentWindow s) (getStlBtn_disabled s) (statusText s)
    (eventLog s) (posted s) x (alerts s) (downloads s).

Definition set_alerts (x : list string) (s : State) : State :=
  mkState (isReady s) (contentWindow s) (getStlBtn_disabled s) (statusText s)
    (eventLog s) (posted s) (console s) x (downloads s).

Definition set_downloads (x : list (Blob * value)) (s : State) : State :=
  mkState (isReady s) (contentWindow s) (getStlBtn_disabled s) (statusText s)
    (eventLog s) (posted s) (console s) (alerts s) x.

Definition console_out (l : level) (args : list carg) : M State unit :=
  modify (fun s => set_console (console s ++ [mkConsole l args]) s).

Definition alert (msg : string) : M State unit :=
  modify (fun s => set_alerts (alerts s ++ [msg]) s).

Definition postMessage (msg : value) (target : string) : M State unit :=
  modify (fun s => set_posted (posted s ++ [mkPosted msg target]) s).

(** [logEvent] (lines 25-40): the data is stringified (line 30) and the type
    interpolated into the markup (line 35) before the entry is inserted. *)
Definition logEvent (type : value) (direction : string) (d : value)
  : M State unit :=
  let entry :=
    mkLog direction (if direction =? "received" then "RECV" else "SENT") type
      (if truthy d then Some d else None) in
  (if truthy d then stringify d else ret tt) ;;
  render type ;;
  modify (fun s => set_eventLog (entry :: eventLog s) s).

Definition sendMessage (type : value) (payload : value) : M State unit :=
  cw <- gets contentWindow ;;
  if negb cw then
    console_out LError [CText [Lit "CADit iframe not available"]]
  else
    postMessage (encode type payload) CADIT_ORIGIN ;;
    logEvent type "sent" payload.

Definition init_payload : value :=
  VObj [("partnerName", VStr PARTNER_NAME);
        ("features", VArr [VStr "export"] [])].

Definition sendInit : M State unit :=
  sendMessage (VStr "init") init_payload ;;
  modify (set_statusText [Lit ("Initialized with partner name: " ++ PARTNER_NAME)]).

Definition handleReady (payload : value) : M State unit :=
  modify (set_isReady true) ;;
  render (js_or (opt_get payload "version") (VStr "unknown")) ;;
  modify (set_statusText
            [Lit "CADit ready (v";
             Interp (js_or (opt_get payload "version") (VStr "unknown"));
             Lit ")"]) ;;
  modify (set_getStlBtn_disabled false) ;;
  sendInit.

(** [URL.createObjectURL(blob)] is a TypeError on anything that is not a
    Blob; the filename is converted to a string when it is assigned to
    [a.download] (line 115); the anchor click starts the download. *)
Definition handleExportStl (payload : value) : M State unit :=
  if negb (truthy (opt_get payload "blob")) then
    console_out LError [CText [Lit "No blob in export-stl payload"]]
  else
    let blob := get payload "blob" in
    let filename := js_or (get payload "filename") (VStr "design.stl") in
    match blob with
    | VBlob b =>
        render filename ;;
        modify (fun s => set_downloads (downloads s ++ [(b, filename)]) s) ;;
        modify (set_statusText [Lit "Downloaded: "; Interp filename])
    | _ => throw (TypeError "Failed to execute 'createObjectURL' on 'URL'")
    end.

Definition handleMessage (event : MessageEvent) : M State unit :=
  if negb (origin event =? CADIT_ORIGIN) then ret tt
  else
    match decode (data event) with
    | NoData =>
        throw (TypeError "Cannot destructure property 'type' of 'event.data'")
    | MissingTag =>
        console_out LWarn
          [CText [Lit "Received message without type:"]; CVal (data event)]
    | Message type payload =>
        logEvent type "received" payload ;;
        if is_str type "ready" then handleReady payload
        else if is_str type "export-stl" then handleExportStl payload
        else console_out LLog [CText [Lit "Unknown message type:"]; CVal type]
    end.

Definition requestStl : M State unit :=
  r <- gets isReady ;;
  if negb r then
    alert "CADit is not ready yet. Please wait for it to load."
  else
    sendMessage (VStr "get-stl") VNull ;;
    modify (set_statusText [Lit "Requesting STL export..."]).

Inductive Trigger :=
| Receive (event : MessageEvent)
| ClickInit
| ClickGetStl
| Frame (present : bool).

Definition listener (t : Trigger) : M State unit :=
  match t with
  | Receive event => handleMessage event
  | ClickInit => sendInit
  | ClickGetStl => requestStl
  | Frame present => modify (set_contentWindow present)
  end.

Definition step (s : State) (t : Trigger) : State := final (listener t s).

Definition run (ts : list Trigger) (s : State) : State := fold_left step ts s.

Definition page_loaded (cw getStl_off : bool) (status : text)
  (log : list LogEntry) : State :=
  final (logEvent (VStr "page-loaded") "sent"
           (VObj [("info", VStr "Waiting for CADit to send ready message...")])
           (mkState false cw getStl_off status log [] [] [] [])).

Definition tagged (tag : string) (ev : MessageEvent) : Prop :=
  origin ev = CADIT_ORIGIN /\ get (data ev) "type" = VStr tag.

Definition payload_of (ev : MessageEvent) : value := get (data ev) "payload".

Definition init_message : Posted :=
  mkPosted (encode (VStr "init") init_payload) CADIT_ORIGIN.

Definition get_stl_message : Posted :=
  mkPosted (encode (VStr "get-stl") VNull) CADIT_ORIGIN.

Definition addressed (p : Posted) : Prop :=
  targetOrigin p = CADIT_ORIGIN /\ targetOrigin p <> "*".

Definition fresh_page : State :=
  page_loaded true true [Lit "Waiting for CADit..."] [].

(** Whether [logEvent] can write the data: it is falsy and not stringified,
    or [JSON.stringify] returns on it. *)
Definition loggable (d : value) : bool := negb (truthy d) || json_ok d.

(** A ready message from the trusted origin that [handleMessage] and
    [handleReady] take to their end. *)
Definition ready_message (ev : MessageEvent) : Prop :=
  tagged "ready" ev /\
  loggable (get (data ev) "payload") = true /\
  to_string_ok (js_or (opt_get (get (data ev) "payload") "version")
                  (VStr "unknown")) = true.

Definition export_event (payload : value) : MessageEvent :=
  mkEvent CADIT_ORIGIN (encode (VStr "export-stl") payload).

End Part000.

(** The tags of the protocol: two sent by the host, two received. *)
Definition vocabulary : list string := ["init"; "get-stl"; "ready"; "export-stl"].

(** How many of the posted messages carry the tag. *)
Definition tag_count (tag : string) (l : list Posted) : nat :=
  List.length (filter (fun p => is_str (get (message p) "type") tag) l).

(** Values that are no objects and neither [null] nor [undefined]. *)
Definition primitive (v : value) : bool :=
  match v with
  | VBool _ | VNum _ | VBigInt _ | VStr _ => true
  | _ => false
  end.

Definition is_object (v : value) : bool :=
  match v with
  | VBlob _ | VArr _ _ | VObj _ | VBack _ => true
  | _ => false
  end.

(** ** Vocabulary of the further properties *)

(** The types of the lines of the event log that record a sent message,
    newest first, and the types of the posted messages, oldest first. *)
Definition sent_types (log : list LogEntry) : list value :=
  map log_message (filter (fun e => log_direction e =? "sent") log).

Definition posted_types (l : list Posted) : list value :=
  map (fun p => get (message p) "type") l.

(** A trigger of [script.js] that assigns [currentBlob]: an [export-stl]
    message from the trusted origin with a truthy [blob]. *)
Definition script_stores (t : Script.Trigger) : bool :=
  match t with
  | Script.Receive ev =>
      (origin ev =? Script.CADIT_ORIGIN)
      && is_str (get (data ev) "type") "export-stl"
      && truthy (opt_get (get (data ev) "payload") "blob")
  | _ => false
  end.

(** A trigger that is no message from another origin. *)
Definition script_trusted (t : Script.Trigger) : bool :=
  match t with
  | Script.Receive ev => origin ev =? Script.CADIT_ORIGIN
  | _ => true
  end.

Definition part000_trusted (t : Part000.Trigger) : bool :=
  match t with
  | Part000.Receive ev => origin ev =? Part000.CADIT_ORIGIN
  | _ => true
  end.

(** A state of [script.js] with its console wiped. *)
Definition script_erase (s : Script.State) : Script.State :=
  Script.set_console [] s.

(** What both copies of the script react to: a message, from the origin the
    copy trusts or from another, a click on the export button, the iframe
    gaining or losing its window. *)
Inductive Common :=
| CMessage (trusted : bool) (d : value)
| CGetStl
| CFrame (present : bool).

Definition script_trigger (c : Common) : Script.Trigger :=
  match c with
  | CMessage trusted d =>
      Script.Receive
        (mkEvent (if trusted then Script.CADIT_ORIGIN else "https://example.org") d)
  | CGetStl => Script.ClickGetStl
  | CFrame present => Script.Frame present
  end.

Definition part000_trigger (c : Common) : Part000.Trigger :=
  match c with
  | CMessage trusted d =>
      Part000.Receive
        (mkEvent (if trusted then Part000.CADIT_ORIGIN else "https://example.org") d)
  | CGetStl => Part000.ClickGetStl
  | CFrame present => Part000.Frame present
  end.

(** The download that a trigger of the second copy starts: the Blob of an
    [export-stl] message from the trusted origin whose payload can be logged
    and whose filename (that of the message, or ['design.stl']) can be
    converted to a string. *)
Definition part000_download_of (t : Part000.Trigger) : list (Blob * value) :=
  match t with
  | Part000.Receive ev =>
      let payload := get (data ev) "payload" in
      let name := js_or (get payload "filename") (VStr "design.stl") in
      if (origin ev =? Part000.CADIT_ORIGIN)
         && is_str (get (data ev) "type") "export-stl"
         && Part000.loggable payload
         && to_string_ok name
      then match opt_get payload "blob" with
           | VBlob b => [(b, name)]
           | _ => []
           end
      else []
  | _ => []
  end.

(** A ready message from the origin the copy trusts that gets past the
    event log to [handleReady]: its payload can be logged. *)
Definition script_ready_trigger (t : Script.Trigger) : bool :=
  match t with
  | Script.Receive ev =>
      (origin ev =? Script.CADIT_ORIGIN)
      && is_str (get (data ev) "type") "ready"
      && Script.loggable (get (data ev) "payload")
  | _ => false
  end.

(** A trigger of [script.js] on which line 214 does not throw: any but a
    ready message that gets to [handleReady] with a version that cannot be
    converted to a string. *)
Definition script_ready_prints (t : Script.Trigger) : bool :=
  match t with
  | Script.Receive ev =>
      negb (script_ready_trigger t)
      || to_string_ok (Script.version_of (get (data ev) "payload"))
  | _ => true
  end.

Definition part000_ready_trigger (t : Part000.Trigger) : bool :=
  match t with
  | Part000.Receive ev =>
      (origin ev =? Part000.CADIT_ORIGIN)
      && is_str (get (data ev) "type") "ready"
      && Part000.loggable (get (data ev) "payload")
  | _ => false
  end.

(** The Blob that a trigger of [script.js] hands to the viewer: that of an
    [export-stl] message from the trusted origin whose payload can be
    logged. *)
Definition script_loaded_of (t : Script.Trigger) : list Blob :=
  match t with
  | Script.Receive ev =>
      if (origin ev =? Script.CADIT_ORIGIN)
         && is_str (get (data ev) "type") "export-stl"
         && Script.loggable (get (data ev) "payload")
      then match opt_get (get (data ev) "payload") "blob" with
           | VBlob b => [b]
           | _ => []
           end
      else []
  | _ => []
  end.

(** A message whose payload is no array: on such a payload the two copies
    log alike. *)
Definition is_array (v : value) : bool :=
  match v with
  | VArr _ _ => true
  | _ => false
  end.

Definition plain_payload (c : Common) : Prop :=
  match c with
  | CMessage _ d => is_array (get d "payload") = false
  | _ => True
  end.

(** * Properties *)

(** ** Values *)

(** Induction on values, through the elements and properties of arrays and
    objects. *)
Section ValueInd.
Variable P : value -> Prop.
Hypothesis Hundefined : P VUndefined.
Hypothesis Hnull : P VNull.
Hypothesis Hbool : forall b, P (VBool b).
Hypothesis Hnum : forall f, P (VNum f).
Hypothesis Hbigint : forall z, P (VBigInt z).
Hypothesis Hstr : forall s, P (VStr s).
Hypothesis Hblob : forall b, P (VBlob b).
Hypothesis Harr : forall items named,
  Forall P items -> Forall (fun kv => P (snd kv)) named -> P (VArr items named).
Hypothesis Hobj : forall fields,
  Forall (fun kv => P (snd kv)) fields -> P (VObj fields).
Hypothesis Hback : forall n, P (VBack n).

Fixpoint value_rect_nested (v : value) : P v :=
  match v with
  | VUndefined => Hundefined
  | VNull => Hnull
  | VBool b => Hbool b
  | VNum f => Hnum f
  | VBigInt z => Hbigint z
  | VStr s => Hstr s
  | VBlob b => Hblob b
  | VArr items named =>
      Harr items named
        ((fix go (l : list value) : Forall P l :=
            match l with
            | [] => Forall_nil _
            | x :: r => Forall_cons _ (value_rect_nested x) (go r)
            end) items)
        ((fix go (l : list (string * value)) : Forall (fun kv => P (snd kv)) l :=
            match l with
            | [] => Forall_nil _
            | kv :: r => Forall_cons _ (value_rect_nested (snd kv)) (go r)
            end) named)
  | VObj fields =>
      Hobj fields
        ((fix go (l : list (string * value)) : Forall (fun kv => P (snd kv)) l :=
            match l with
            | [] => Forall_nil _
            | kv :: r => Forall_cons _ (value_rect_nested (snd kv)) (go r)
            end) fields)
  | VBack n => Hback n
  end.
End ValueInd.

Lemma map_id_on {A} (f : A -> A) (P : A -> Prop) l :
  Forall P l -> (forall x, P x -> f x = x) -> map f l = l.
Proof.
  intros H Hf. induction H as [| x l Hx _ IH]; cbn; [reflexivity |].
  rewrite (Hf x Hx), IH. reflexivity.
Qed.

(** Taking out of a container what was just put into it gives it back. *)
Lemma subst_lift p v : forall d, subst p d (lift d v) = v.
Proof.
  induction v as [| | | | | | | items named IHi IHn | fields IH | n]
    using value_rect_nested; intros d; cbn; try reflexivity.
  - rewrite !map_map. f_equal.
    + apply map_id_on with (P := fun x => forall d, subst p d (lift d x) = x);
        [exact IHi | intros x Hx; apply Hx].
    + apply map_id_on
        with (P := fun kv : string * value =>
                     forall d, subst p d (lift d (snd kv)) = snd kv);
        [exact IHn |].
      intros [k x] Hx. cbn in *. rewrite Hx. reflexivity.
  - rewrite map_map. f_equal.
    apply map_id_on
      with (P := fun kv : string * value =>
                   forall d, subst p d (lift d (snd kv)) = snd kv);
      [exact IH |].
    intros [k x] Hx. cbn in *. rewrite Hx. reflexivity.
  - destruct (Nat.leb d n) eqn:E.
    + apply Nat.leb_le in E.
      destruct (Nat.compare_spec (S n) d) as [H | H | H]; try lia. reflexivity.
    + apply Nat.leb_gt in E.
      destruct (Nat.compare_spec n d) as [H | H | H]; try lia. reflexivity.
Qed.

Lemma lookup_map_snd (f : value -> value) k fields :
  f VUndefined = VUndefined ->
  lookup k (map (fun kv => (fst kv, f (snd kv))) fields) = f (lookup k fields).
Proof.
  intros Hf. induction fields as [| [k' v] rest IH]; cbn; [symmetry; exact Hf |].
  destruct (k' =? k); [reflexivity | exact IH].
Qed.

Lemma lookup_spread_same fields k v : lookup k (spread_with fields k v) = v.
Proof.
  induction fields as [| [k' v'] rest IH]; cbn.
  - rewrite String.eqb_refl. reflexivity.
  - destruct (k' =? k) eqn:E; cbn; rewrite E; [reflexivity | exact IH].
Qed.

Lemma lookup_spread_other fields k v k' :
  k' <> k -> lookup k' (spread_with fields k v) = lookup k' fields.
Proof.
  intros Hne. induction fields as [| [k0 v0] rest IH]; cbn.
  - destruct (k =? k') eqn:E; [| reflexivity].
    apply String.eqb_eq in E. congruence.
  - destruct (k0 =? k) eqn:E; cbn.
    + apply String.eqb_eq in E. subst k0.
      destruct (k =? k') eqn:E'; [| reflexivity].
      apply String.eqb_eq in E'. congruence.
    + destruct (k0 =? k'); [reflexivity | exact IH].
Qed.

(** The property of a new object literal [{ ...v }] is the property of
    [v]. *)
Lemma get_spread_props v k :
  subst (VObj (spread_props v)) 0 (lookup k (spread_props v)) =
  subst v 0 (lookup k (own_props v)).
Proof.
  unfold spread_props.
  rewrite (lookup_map_snd (fun x => lift 0 (subst v 0 x))); [| reflexivity].
  apply subst_lift.
Qed.

(** *** What [JSON.stringify] accepts *)

Lemma forallb_map_comp {A B} (f : B -> bool) (g : A -> B) l :
  forallb f (map g l) = forallb (fun x => f (g x)) l.
Proof.
  induction l as [| x l IH]; cbn; [reflexivity |]. rewrite IH. reflexivity.
Qed.

Lemma json_ok_lift v : forall c, json_ok (lift c v) = json_ok v.
Proof.
  induction v as [| | | | | | | items named IHi IHn | fields IH | n]
    using value_rect_nested; intros c; cbn; try reflexivity.
  - rewrite forallb_map_comp. clear IHn.
    induction IHi as [| x l Hx _ IHl]; cbn; [reflexivity |].
    rewrite Hx, IHl. reflexivity.
  - rewrite forallb_map_comp. cbn.
    induction IH as [| [k x] l Hx _ IHl]; cbn in *; [reflexivity |].
    rewrite Hx, IHl. reflexivity.
Qed.

Lemma json_ok_lift_by k v : json_ok (lift_by k v) = json_ok v.
Proof.
  induction k as [| k IH]; cbn; [reflexivity |]. rewrite json_ok_lift. exact IH.
Qed.

Lemma json_ok_subst_true p v : forall d,
  json_ok v = true -> json_ok (subst p d v) = true.
Proof.
  induction v as [| | | | | | | items named IHi IHn | fields IH | n]
    using value_rect_nested; intros d H; cbn in *; try reflexivity;
    try discriminate H.
  - rewrite forallb_map_comp. clear IHn.
    induction IHi as [| x l Hx _ IHl]; cbn in *; [reflexivity |].
    apply andb_true_iff in H. destruct H as [H1 H2].
    rewrite (Hx _ H1), (IHl H2). reflexivity.
  - rewrite forallb_map_comp. cbn.
    induction IH as [| [k x] l Hx _ IHl]; cbn in *; [reflexivity |].
    apply andb_true_iff in H. destruct H as [H1 H2].
    rewrite (Hx _ H1), (IHl H2). reflexivity.
Qed.

Lemma json_ok_subst_false p v : forall d,
  json_ok p = false -> json_ok v = false -> json_ok (subst p d v) = false.
Proof.
  induction v as [| | | | | | | items named IHi IHn | fields IH | n]
    using value_rect_nested; intros d Hp H; cbn in *; try reflexivity;
    try discriminate H.
  - rewrite forallb_map_comp. clear IHn.
    induction IHi as [| x l Hx _ IHl]; cbn in *; [discriminate H |].
    apply andb_false_iff in H. apply andb_false_iff. destruct H as [H | H].
    + left. apply Hx; assumption.
    + right. apply IHl, H.
  - rewrite forallb_map_comp. cbn.
    induction IH as [| [k x] l Hx _ IHl]; cbn in *; [discriminate H |].
    apply andb_false_iff in H. apply andb_false_iff. destruct H as [H | H].
    + left. apply Hx; assumption.
    + right. apply IHl, H.
  - destruct (Nat.compare n d); cbn; try reflexivity.
    rewrite json_ok_lift_by. exact Hp.
Qed.

(** ** The codec *)

Lemma origin_eqb ev o : origin ev = o -> (origin ev =? o) = true.
Proof. intros ->. apply String.eqb_refl. Qed.

Lemma nullish_get d k : nullish d = true -> get d k = VUndefined.
Proof. destruct d; simpl; intros H; try discriminate H; reflexivity. Qed.

Lemma decode_truthy d :
  truthy (get d "type") = true ->
  decode d = Message (get d "type") (get d "payload").
Proof.
  intros H. unfold decode, destructure.
  destruct (nullish d) eqn:E.
  - rewrite (nullish_get d "type" E) in H. discriminate H.
  - rewrite H. reflexivity.
Qed.

Lemma decode_nullish d : nullish d = true -> decode d = NoData.
Proof. intros H. unfold decode, destructure. rewrite H. reflexivity. Qed.

Lemma decode_falsy d :
  nullish d = false -> truthy (get d "type") = false -> decode d = MissingTag.
Proof. intros H1 H2. unfold decode, destructure. rewrite H1, H2. reflexivity. Qed.

Lemma primitive_decode d : primitive d = true -> decode d = MissingTag.
Proof. destruct d; simpl; intros H; try discriminate H; reflexivity. Qed.

Lemma decode_Message_inv d type payload :
  decode d = Message type payload ->
  type = get d "type" /\ payload = get d "payload" /\ truthy type = true.
Proof.
  unfold decode, destructure. destruct (nullish d); [discriminate |].
  destruct (truthy (get d "type")) eqn:E; [| discriminate].
  intros H. injection H as <- <-. auto.
Qed.

Lemma vocabulary_truthy tag : In tag vocabulary -> truthy (VStr tag) = true.
Proof.
  unfold vocabulary. simpl.
  intros [<- | [<- | [<- | [<- | []]]]]; reflexivity.
Qed.

Lemma get_encode type payload :
  get (encode type payload) "type" = type /\
  get (encode type payload) "payload" = payload.
Proof.
  unfold encode, get. cbn [own_props lookup]. split.
  - change ("type" =? "type") with true. cbv iota. apply subst_lift.
  - change ("type" =? "payload") with false.
    change ("payload" =? "payload") with true. cbv iota. apply subst_lift.
Qed.

Lemma decode_encode_truthy type payload :
  truthy type = true -> decode (encode type payload) = Message type payload.
Proof.
  intros H. destruct (get_encode type payload) as [Ht Hp].
  assert (E : truthy (get (encode type payload) "type") = true)
    by (rewrite Ht; exact H).
  rewrite (decode_truthy _ E), Ht, Hp. reflexivity.
Qed.

Lemma is_str_truthy v lit : lit <> "" -> is_str v lit = true -> truthy v = true.
Proof.
  intros Hne H. destruct v; cbn in H; try discriminate H.
  apply String.eqb_eq in H. subst s. cbn. apply negb_true_iff, String.eqb_neq, Hne.
Qed.

Lemma is_str_renders v lit : is_str v lit = true -> to_string_ok v = true.
Proof. destruct v; cbn; intros H; try discriminate H; reflexivity. Qed.

Lemma is_str_ready_not_export v :
  is_str v "ready" = true -> is_str v "export-stl" = false.
Proof.
  destruct v; cbn; try reflexivity. intros H.
  apply String.eqb_eq in H. subst s. reflexivity.
Qed.

(** C8. For each of the four tags and every payload, what [sendMessage]
    builds is read back by the destructuring of [handleMessage] as the same
    tag and the same payload. *)
Theorem decode_encode (tag : string) (payload : value) :
  In tag vocabulary ->
  decode (encode (VStr tag) payload) = Message (VStr tag) payload.
Proof. intros H. apply decode_encode_truthy, vocabulary_truthy, H. Qed.

Lemma decode_encode_witness :
  decode (encode (VStr "export-stl")
            (VObj [("blob", VBlob (mkBlob [Byte.x73; Byte.x6f] "model/stl"));
                   ("filename", VStr "part.stl")])) =
  Message (VStr "export-stl")
    (VObj [("blob", VBlob (mkBlob [Byte.x73; Byte.x6f] "model/stl"));
           ("filename", VStr "part.stl")]).
Proof.
  apply (decode_encode "export-stl"). unfold vocabulary. simpl. tauto.
Defined.

Module ScriptFacts.
Import Script.

Ltac eval_is_str :=
  repeat match goal with
  | |- context [is_str (VStr ?a) ?b] =>
      let r := eval vm_compute in (is_str (VStr a) b) in
      change (is_str (VStr a) b) with r
  end; cbv iota.

Ltac mstep :=
  unfold bind, gets, modify, ret, throw, console_out, alert, postMessage.

(** Unfolding the handlers down to the state they build, and splitting on
    every test they make. *)
Ltac open_step :=
  cbv beta iota zeta delta
    [step listener handleMessage handleReady sendInit sendMessage
     handleExportStl requestStl downloadStl logEvent loadSTL initViewer
     console_out alert postMessage bind gets modify ret throw final returns
     render stringify negb].

Ltac open_state :=
  cbn [set_isReady set_currentBlob set_currentFilename set_renderer
       set_contentWindow set_getStlBtn_disabled set_downloadBtn_disabled
       set_statusText set_previewContainer_display set_eventLog set_posted
       set_console set_alerts set_loaded set_downloads
       isReady currentBlob currentFilename renderer contentWindow
       getStlBtn_disabled downloadBtn_disabled statusText
       previewContainer_display eventLog posted console alerts loaded downloads].

(** The two messages the script sends are strings and literals: logging
    them cannot throw. *)
Ltac eval_sent :=
  repeat match goal with
  | |- context [to_string_ok (VStr ?a)] => change (to_string_ok (VStr a)) with true
  | |- context [displayData init_payload] =>
      change (displayData init_payload) with init_payload
  | |- context [displayData VNull] => change (displayData VNull) with VNull
  | |- context [truthy init_payload] => change (truthy init_payload) with true
  | |- context [json_ok init_payload] => change (json_ok init_payload) with true
  | |- context [truthy VNull] => change (truthy VNull) with false
  | |- context [String.eqb ?a ?b] =>
      let r := eval vm_compute in (String.eqb a b) in
      lazymatch r with true => idtac | false => idtac end;
      change (String.eqb a b) with r
  end; cbv beta iota.

Ltac break_step :=
  repeat (cbv beta iota; open_state;
          match goal with
          | |- context [match ?x with _ => _ end] =>
              lazymatch x with
              | context [match _ with _ => _ end] => fail
              | _ => destruct x eqn:?
              end
          end).

Ltac norm_hyps :=
  repeat match goal with
  | H : negb _ = false |- _ => apply negb_false_iff in H
  | H : negb _ = true |- _ => apply negb_true_iff in H
  end.

Ltac crush_step := open_step; eval_sent; break_step.

Lemma run_invariant (P : State -> Prop) :
  (forall s t, P s -> P (step s t)) -> forall ts s, P s -> P (run ts s).
Proof.
  intros Hstep ts. induction ts as [| t ts IH]; intros s H; [exact H |].
  apply IH, Hstep, H.
Qed.

Lemma run_cons t ts s : run (t :: ts) s = run ts (step s t).
Proof. reflexivity. Qed.


Lemma tagged_truthy tag ev : tagged tag ev -> tag <> "" -> truthy (get (data ev) "type") = true.
Proof.
  intros [_ H] Hne. rewrite H. simpl. apply negb_true_iff, String.eqb_neq, Hne.
Qed.

Lemma tagged_renders tag ev : tagged tag ev -> to_string_ok (get (data ev) "type") = true.
Proof. intros [_ H]. rewrite H. reflexivity. Qed.

(** What [handleMessage] does with a trusted event whose tag can be printed
    and whose payload can be logged: the two log lines, then the dispatch. *)
Lemma handleMessage_dispatch ev s :
  origin ev = CADIT_ORIGIN ->
  truthy (get (data ev) "type") = true ->
  to_string_ok (get (data ev) "type") = true ->
  loggable (payload_of ev) = true ->
  handleMessage ev s =
  (if is_str (get (data ev) "type") "ready" then handleReady (payload_of ev)
   else if is_str (get (data ev) "type") "export-stl"
        then handleExportStl (payload_of ev)
        else console_out LLog
               [CText [Lit "Unknown message type:"]; CVal (get (data ev) "type")])
    (set_eventLog (received_entry ev :: eventLog s)
       (set_console (console s ++ [received_line ev]) s)).
Proof.
  intros Ho Ht Hr Hl. unfold handleMessage.
  rewrite (origin_eqb ev _ Ho), (decode_truthy _ Ht). cbn [negb].
  unfold loggable, payload_of in Hl. unfold received_entry, payload_of.
  cbv beta iota zeta delta [bind render stringify logEvent console_out modify ret throw].
  rewrite Hr. cbv beta iota.
  destruct (truthy (displayData (get (data ev) "payload"))); cbn [negb orb] in Hl;
    [rewrite Hl |]; reflexivity.
Qed.

(** A trusted message whose tag cannot be printed, or whose payload cannot
    be logged, ends in a throw before the dispatch, with nothing written
    but, in the second case, the console line. *)
Lemma handleMessage_unlogged ev s :
  origin ev = CADIT_ORIGIN ->
  truthy (get (data ev) "type") = true ->
  to_string_ok (get (data ev) "type") && loggable (payload_of ev) = false ->
  returns (handleMessage ev s) = false /\
  (final (handleMessage ev s) = s \/
   final (handleMessage ev s) = set_console (console s ++ [received_line ev]) s).
Proof.
  intros Ho Ht Hl. unfold handleMessage.
  rewrite (origin_eqb ev _ Ho), (decode_truthy _ Ht). cbn [negb].
  unfold loggable, payload_of in Hl.
  cbv beta iota zeta delta [bind render stringify logEvent console_out modify ret throw].
  destruct (to_string_ok (get (data ev) "type")); cbn [andb] in Hl;
    [| split; [reflexivity | left; reflexivity]].
  destruct (truthy (displayData (get (data ev) "payload")));
    cbn [negb orb] in Hl; [| discriminate Hl].
  rewrite Hl. split; [reflexivity | right; reflexivity].
Qed.

Lemma untagged_message_returns ev s :
  origin ev = CADIT_ORIGIN -> truthy (get (data ev) "type") = false ->
  final (handleMessage ev s) = s.
Proof.
  intros Ho Ht. unfold handleMessage. rewrite (origin_eqb ev _ Ho). cbn [negb].
  destruct (decode (data ev)) as [type payload | |] eqn:Hd; try reflexivity.
  apply decode_Message_inv in Hd. destruct Hd as (-> & _ & Ht'). congruence.
Qed.

(** A message handled, test by test. *)
Lemma receive_step ev s :
  step s (Receive ev) =
  if origin ev =? CADIT_ORIGIN then
    if truthy (get (data ev) "type") then
      if to_string_ok (get (data ev) "type") then
        if loggable (payload_of ev) then
          final
            ((if is_str (get (data ev) "type") "ready"
              then handleReady (payload_of ev)
              else if is_str (get (data ev) "type") "export-stl"
                   then handleExportStl (payload_of ev)
                   else console_out LLog
                          [CText [Lit "Unknown message type:"];
                           CVal (get (data ev) "type")])
               (set_eventLog (received_entry ev :: eventLog s)
                  (set_console (console s ++ [received_line ev]) s)))
        else set_console (console s ++ [received_line ev]) s
      else s
    else s
  else if truthy (data ev) && truthy (get (data ev) "type")
       then set_console
              (console s ++
               [mkConsole LLog
                  [CText [Lit ("Ignored message from origin: " ++ origin ev
                                 ++ " (expected: " ++ CADIT_ORIGIN ++ ")")]]])
              s
       else s.
Proof.
  unfold step. cbn [listener].
  destruct (origin ev =? CADIT_ORIGIN) eqn:Ho.
  - apply String.eqb_eq in Ho.
    destruct (truthy (get (data ev) "type")) eqn:Ht;
      [| apply untagged_message_returns; assumption].
    destruct (to_string_ok (get (data ev) "type")) eqn:Hp.
    + destruct (loggable (payload_of ev)) eqn:Hl.
      * rewrite (handleMessage_dispatch ev s Ho Ht Hp Hl). reflexivity.
      * unfold handleMessage.
        rewrite (origin_eqb ev _ Ho), (decode_truthy _ Ht). cbn [negb].
        unfold loggable, payload_of in Hl.
        cbv beta iota zeta delta [bind render stringify logEvent console_out modify ret throw].
        rewrite Hp. cbv beta iota.
        destruct (truthy (displayData (get (data ev) "payload")));
          cbn [negb orb] in Hl; [| discriminate Hl].
        rewrite Hl. reflexivity.
    + unfold handleMessage.
      rewrite (origin_eqb ev _ Ho), (decode_truthy _ Ht). cbn [negb].
      cbv beta iota zeta delta [bind render throw]. rewrite Hp. reflexivity.
  - unfold handleMessage. rewrite Ho. cbn [negb].
    destruct (truthy (data ev) && truthy (get (data ev) "type")); reflexivity.
Qed.

Lemma sendMessage_posted type payload s :
  posted (final (sendMessage type payload s)) =
  posted s ++
  (if contentWindow s then [mkPosted (encode type payload) CADIT_ORIGIN] else []).
Proof.
  open_step. break_step; norm_hyps; cbn; rewrite ?app_nil_r;
    try reflexivity; congruence.
Qed.

Lemma sendInit_eq s :
  sendInit s =
  Ok tt (set_statusText init_status
           (if contentWindow s
            then set_eventLog
                   (mkLog "sent" "SENT" (VStr "init") (Some init_payload)
                      :: eventLog s)
                   (set_posted (posted s ++ [init_message]) s)
            else set_console
                   (console s ++
                    [mkConsole LError [CText [Lit "CADit iframe not available"]]])
                   s)).
Proof. crush_step; reflexivity. Qed.

Lemma handleReady_eq payload s :
  to_string_ok (version_of payload) = true ->
  handleReady payload s =
  sendInit (set_getStlBtn_disabled false
              (set_statusText (ready_status (version_of payload))
                 (set_isReady true s))).
Proof.
  intros H. unfold handleReady, version_of in *.
  cbv beta iota delta [bind render modify ret]. rewrite H. reflexivity.
Qed.

Lemma ready_step ev s :
  ready_message ev ->
  let s' := step s (Receive ev) in
  returns (handleMessage ev s) = true /\
  view s' = view (set_getStlBtn_disabled false (set_statusText init_status (set_isReady true s))) /\
  posted s' = posted s ++ (if contentWindow s then [init_message] else []) /\
  eventLog s' =
    (if contentWindow s
     then [mkLog "sent" "SENT" (VStr "init") (Some init_payload)] else [])
    ++ received_entry ev :: eventLog s.
Proof.
  intros (H & Hl & Hv). pose proof (tagged_truthy _ _ H ltac:(discriminate)) as Ht.
  pose proof (tagged_renders _ _ H) as Hr.
  destruct H as [Ho Hty]. unfold step. simpl listener.
  rewrite (handleMessage_dispatch ev s Ho Ht Hr Hl). rewrite Hty. eval_is_str.
  rewrite (handleReady_eq _ _ Hv), sendInit_eq. simpl.
  destruct (contentWindow s); simpl; rewrite ?app_nil_r; auto.
Qed.

(** *** Origin gate *)

(** C1. An event whose origin is not the string [CADIT_ORIGIN] is dropped:
    the handler returns, no variable of the script and no element of the page
    changes, nothing is posted, nothing reaches the event log; at most one
    line goes to the console. *)
Theorem untrusted_origin_dropped (ev : MessageEvent) (s : State) :
  origin ev <> CADIT_ORIGIN ->
  exists s',
    handleMessage ev s = Ok tt s' /\
    session s' = session s /\
    posted s' = posted s /\
    view s' = view s /\
    eventLog s' = eventLog s.
Proof.
  intros H. apply String.eqb_neq in H.
  unfold handleMessage. rewrite H. cbn [negb].
  destruct (truthy (data ev) && truthy (get (data ev) "type"));
    eexists; (split; [reflexivity |]); repeat split.
Qed.

(** The comparison is exact: another scheme, another port or another
    letter case is another origin. *)
Lemma untrusted_origin_dropped_witness :
  let ev := mkEvent "HTTPS://app.cadit.app"
              (encode (VStr "ready") (VObj [("version", VStr "1.0")])) in
  exists s',
    handleMessage ev fresh_page = Ok tt s' /\
    session s' = session fresh_page /\
    posted s' = posted fresh_page /\
    view s' = view fresh_page /\
    eventLog s' = eventLog fresh_page.
Proof.
  apply (untrusted_origin_dropped
           (mkEvent "HTTPS://app.cadit.app"
              (encode (VStr "ready") (VObj [("version", VStr "1.0")])))
           fresh_page).
  simpl. discriminate.
Defined.

(** *** Outbound addressing *)

Lemma step_addressed s t :
  Forall addressed (posted s) -> Forall addressed (posted (step s t)).
Proof.
  intros H. destruct t as [ev | | | present]; crush_step; cbn;
    try exact H;
    (apply Forall_app; split; [exact H |]);
    repeat constructor; discriminate.
Qed.

Lemma run_addressed ts : forall s,
  Forall addressed (posted s) -> Forall addressed (posted (run ts s)).
Proof. apply (run_invariant (fun s => Forall addressed (posted s))), step_addressed. Qed.

(** C2. Whatever the page receives and whatever the user clicks, from the
    evaluation of the script on, every message handed to [postMessage] names
    [CADIT_ORIGIN] as its target origin, never the wildcard ["*"]; and a
    call of [sendMessage], for every tag and payload, posts at most that one
    message, so addressed. *)
Theorem outbound_addressed_to_trusted_origin
  (ts : list Trigger) (cw g d : bool) (status : text) (display : string)
  (log : list LogEntry) (type payload : value) (s : State) :
  Forall addressed (posted (run ts (page_loaded cw g d status display log))) /\
  posted (final (sendMessage type payload s)) =
    posted s ++
    (if contentWindow s then [mkPosted (encode type payload) CADIT_ORIGIN] else []).
Proof.
  split.
  - apply run_addressed. constructor.
  - apply sendMessage_posted.
Qed.

(** *** Export request *)

(** C4, as the code has it. [requestStl] always returns and leaves the
    session alone. Before readiness it posts nothing and raises the alert.
    Once ready it posts one [get-stl] message with a [null] payload when the
    iframe has its window; when it has none, nothing is posted and the
    console gets an error line. *)
Theorem requestStl_cases (s : State) :
  exists s',
    requestStl s = Ok tt s' /\
    session s' = session s /\
    posted s' =
      posted s ++ (if isReady s && contentWindow s then [get_stl_message] else []) /\
    alerts s' =
      alerts s ++
      (if isReady s then []
       else ["CADit is not ready yet. Please wait for it to load."]) /\
    console s' =
      console s ++
      (if isReady s && negb (contentWindow s)
       then [mkConsole LError [CText [Lit "CADit iframe not available"]]]
       else []) /\
    get_stl_message =
      mkPosted (VObj [("type", VStr "get-stl"); ("payload", VNull)]) CADIT_ORIGIN.
Proof.
  destruct (isReady s) eqn:Hr, (contentWindow s) eqn:Hc; cbn [andb negb];
    open_step; eval_sent; rewrite ?Hr, ?Hc; cbv beta iota;
    (eexists; split; [reflexivity |]); unfold session; cbn;
    rewrite ?app_nil_r, ?Hr, ?Hc; repeat split.
Qed.

(** C4 as stated fails in its last clause: ready, but the iframe has lost
    its window, and the click posts nothing. *)
Lemma ready_without_frame_sends_nothing :
  let s := run [Receive (ready_event "1.0"); Frame false] fresh_page in
  isReady s = true /\
  posted (step s ClickGetStl) = posted s /\
  tag_count "get-stl" (posted (step s ClickGetStl)) = 0.
Proof. vm_compute. repeat split. Qed.

(** *** Handshake *)


Lemma view_contentWindow a b : view a = view b -> contentWindow a = contentWindow b.
Proof. unfold view. intros H. injection H. auto. Qed.

Lemma ready_step_contentWindow ev s :
  ready_message ev -> contentWindow (step s (Receive ev)) = contentWindow s.
Proof.
  intros H. destruct (ready_step ev s H) as (_ & Hv & _).
  apply view_contentWindow in Hv. exact Hv.
Qed.

Lemma ready_run_posted evs : forall s,
  Forall ready_message evs ->
  posted (run (map Receive evs) s) =
  posted s ++ repeat init_message (if contentWindow s then List.length evs else 0).
Proof.
  induction evs as [| ev evs IH]; intros s H.
  - cbn. destruct (contentWindow s); rewrite app_nil_r; reflexivity.
  - inversion H as [| ? ? Hev Hrest]; subst. cbn [map]. rewrite run_cons.
    rewrite (IH _ Hrest), (ready_step_contentWindow ev s Hev).
    destruct (ready_step ev s Hev) as (_ & _ & Hp & _). rewrite Hp.
    destruct (contentWindow s); cbn [List.length repeat]; rewrite <- app_assoc;
      reflexivity.
Qed.


(** C3, as the code has it. Every ready message from the trusted origin
    that the handler takes to its end (its payload can be logged and its
    version printed) is answered by one init message, the second and the
    tenth like the first: [evs] of them, handled while the iframe has its
    window, post [length evs] init messages (none while it has no window).
    Each carries the partner name and the feature list and goes to
    [CADIT_ORIGIN]. *)
Theorem each_ready_sends_one_init (evs : list MessageEvent) (s : State) :
  Forall ready_message evs ->
  posted (run (map Receive evs) s) =
    posted s ++ repeat init_message (if contentWindow s then List.length evs else 0) /\
  init_message =
    mkPosted
      (VObj [("type", VStr "init");
             ("payload", VObj [("partnerName", VStr "MyApp");
                               ("features", VArr [VStr "export"] [])])])
      CADIT_ORIGIN.
Proof.
  intros H. split; [apply ready_run_posted, H | reflexivity].
Qed.

Lemma ready_event_message version : ready_message (ready_event version).
Proof.
  split; [split; reflexivity |]. split; [reflexivity |].
  destruct version; reflexivity.
Qed.

Lemma each_ready_sends_one_init_witness :
  posted (run (map Receive [ready_event "1.0"; ready_event "1.0"; ready_event "1.1"])
            fresh_page) =
  [init_message; init_message; init_message].
Proof.
  apply (proj1 (each_ready_sends_one_init
                  [ready_event "1.0"; ready_event "1.0"; ready_event "1.1"]
                  fresh_page
                  (Forall_cons _ (ready_event_message "1.0")
                     (Forall_cons _ (ready_event_message "1.0")
                        (Forall_cons _ (ready_event_message "1.1")
                           (Forall_nil _)))))).
Defined.

(** C3 as stated fails: a second ready message gets a second init. *)
Lemma second_ready_sends_second_init :
  let s := run [Receive (ready_event "1.0"); Receive (ready_event "1.0")] fresh_page in
  tag_count "init" (posted s) = 2 /\ tag_count "init" (posted s) <> 1.
Proof. vm_compute. split; [reflexivity | discriminate]. Qed.





(** *** Artifact store *)

Lemma handleExportStl_missing payload s :
  truthy (opt_get payload "blob") = false ->
  handleExportStl payload s =
  Ok tt (set_statusText [Lit "Error: No STL data received"]
           (set_console
              (console s ++ [mkConsole LError [CText [Lit "No blob in export-stl payload"]]])
              s)).
Proof. intros H. unfold handleExportStl. rewrite H. reflexivity. Qed.

Lemma export_event_tagged payload : tagged "export-stl" (export_event payload).
Proof. split; reflexivity. Qed.

Lemma export_missing_step ev s :
  tagged "export-stl" ev ->
  loggable (payload_of ev) = true ->
  truthy (opt_get (payload_of ev) "blob") = false ->
  handleMessage ev s =
  Ok tt (set_statusText [Lit "Error: No STL data received"]
           (set_console
              (console s ++
               [received_line ev;
                mkConsole LError [CText [Lit "No blob in export-stl payload"]]])
              (set_eventLog (received_entry ev :: eventLog s) s))).
Proof.
  intros H Hl Hb. pose proof (tagged_truthy _ _ H ltac:(discriminate)) as Ht.
  pose proof (tagged_renders _ _ H) as Hr.
  destruct H as [Ho Hty].
  rewrite (handleMessage_dispatch ev s Ho Ht Hr Hl), Hty. eval_is_str.
  rewrite (handleExportStl_missing _ _ Hb). cbn. rewrite <- app_assoc. reflexivity.
Qed.

(** The state in which [handleExportStl] ends on a payload that holds a
    Blob, whether the filename can be printed (and the handler returns) or
    not (and the status line stays). *)
Lemma handleExportStl_blob payload b s :
  get payload "blob" = VBlob b ->
  let stored :=
    set_loaded (loaded s ++ [b])
      ((if renderer s then fun s1 => s1 else set_renderer true)
         (set_previewContainer_display "block"
            (set_downloadBtn_disabled false
               (set_currentFilename (filename_of payload)
                  (set_currentBlob (VBlob b) s))))) in
  handleExportStl payload s =
  if to_string_ok (filename_of payload)
  then Ok tt
         (set_statusText
            [Lit "Received: "; Interp (filename_of payload);
             Lit " ("; InterpRoundDiv (VNum (num_of_N (blob_size b))) 1024;
             Lit " KB)"]
            stored)
  else Throw (TypeError "Cannot convert object to primitive value") stored.
Proof.
  intros H stored. subst stored. unfold handleExportStl, opt_get, filename_of.
  assert (Hn : nullish payload = false).
  { destruct payload; try reflexivity; discriminate H. }
  rewrite Hn, H. cbn [truthy negb]. unfold initViewer, loadSTL, render. mstep. cbn.
  destruct (renderer s); cbn;
    destruct (to_string_ok (js_or (get payload "filename") (VStr "design.stl")));
    reflexivity.
Qed.

Lemma js_or_default_truthy v : truthy (js_or v (VStr "design.stl")) = true.
Proof. unfold js_or. destruct (truthy v) eqn:E; [exact E | reflexivity]. Qed.

Lemma opt_get_truthy v k : truthy (opt_get v k) = true -> truthy (get v k) = true.
Proof. unfold opt_get. destruct (nullish v); [discriminate | auto]. Qed.

Lemma step_artifact s t : has_artifact s -> has_artifact (step s t).
Proof.
  intros [Hb Hf]. unfold has_artifact.
  destruct t as [ev | | | present]; crush_step; cbn;
    try (split; congruence);
    match goal with
    | H1 : truthy (opt_get ?p ?k) = true, H2 : get ?p ?k = _ |- _ =>
        apply opt_get_truthy in H1; rewrite H2 in H1;
        (split; [first [exact H1 | discriminate H1] | apply js_or_default_truthy])
    end.
Qed.

Lemma run_artifact ts : forall s, has_artifact s -> has_artifact (run ts s).
Proof. apply (run_invariant has_artifact), step_artifact. Qed.

(** What does not store leaves the artifact as it is. *)
Lemma step_keeps_artifact s t :
  script_stores t = false ->
  currentBlob (step s t) = currentBlob s /\
  currentFilename (step s t) = currentFilename s.
Proof.
  intros H. destruct t as [ev | | | present]; crush_step; cbn;
    try (split; congruence);
    exfalso; cbn [script_stores] in H;
    repeat match goal with
    | E : decode (data ev) = Message _ _ |- _ =>
        apply decode_Message_inv in E; destruct E as (-> & -> & ?)
    | E : (origin ev =? CADIT_ORIGIN) = true |- _ => rewrite E in H
    | E : is_str _ _ = true |- _ => rewrite E in H
    | E : truthy (opt_get _ _) = true |- _ => rewrite E in H
    end; discriminate H.
Qed.

Lemma run_keeps_artifact ts : forall s,
  forallb (fun t => negb (script_stores t)) ts = true ->
  currentBlob (run ts s) = currentBlob s /\
  currentFilename (run ts s) = currentFilename s.
Proof.
  induction ts as [| t ts IH]; intros s H; [split; reflexivity |].
  cbn [forallb] in H. apply andb_prop in H. destruct H as [Ht Hts].
  apply negb_true_iff in Ht. rewrite run_cons.
  destruct (IH (step s t) Hts) as [-> ->]. apply step_keeps_artifact, Ht.
Qed.

Lemma export_step ev b s :
  tagged "export-stl" ev ->
  loggable (payload_of ev) = true ->
  get (payload_of ev) "blob" = VBlob b ->
  let s' := step s (Receive ev) in
  currentBlob s' = VBlob b /\
  currentFilename s' = filename_of (payload_of ev) /\
  downloadBtn_disabled s' = false /\
  previewContainer_display s' = "block" /\
  renderer s' = true /\
  loaded s' = loaded s ++ [b] /\
  returns (handleMessage ev s) = to_string_ok (filename_of (payload_of ev)).
Proof.
  intros H Hl Hb s'. pose proof (tagged_truthy _ _ H ltac:(discriminate)) as Ht.
  pose proof (tagged_renders _ _ H) as Hr.
  destruct H as [Ho Hty].
  assert (E : handleMessage ev s =
              handleExportStl (payload_of ev)
                (set_eventLog (received_entry ev :: eventLog s)
                   (set_console (console s ++ [received_line ev]) s))).
  { rewrite (handleMessage_dispatch ev s Ho Ht Hr Hl), Hty. eval_is_str. reflexivity. }
  subst s'. unfold step. cbn [listener]. rewrite E.
  set (s0 := set_eventLog _ _).
  rewrite (handleExportStl_blob _ b s0 Hb).
  destruct (to_string_ok (filename_of (payload_of ev)));
    subst s0; cbn; destruct (renderer s) eqn:Hren; cbn; rewrite ?Hren;
    repeat split.
Qed.

(** C6, as the code has it. An [export-stl] message from the trusted origin
    whose payload can be logged and holds a Blob: when the handler ends, the
    stored blob is that Blob, whatever was stored before; the stored
    filename is the payload's when that is truthy, and ['design.stl'] when
    it is empty or missing; the handler returns when the filename can be
    printed. From then on, whatever arrives and whatever is clicked, a blob
    and a filename are stored, both truthy, and they are the same as long as
    no further export with a blob arrives: nothing clears them. *)
Theorem export_stores_artifact
  (ev : MessageEvent) (b : Blob) (s : State) (ts : list Trigger) :
  tagged "export-stl" ev ->
  loggable (payload_of ev) = true ->
  get (payload_of ev) "blob" = VBlob b ->
  let s' := step s (Receive ev) in
  currentBlob s' = VBlob b /\
  currentFilename s' =
    (if truthy (get (payload_of ev) "filename")
     then get (payload_of ev) "filename" else VStr "design.stl") /\
  returns (handleMessage ev s) = to_string_ok (currentFilename s') /\
  truthy (currentBlob (run ts s')) = true /\
  truthy (currentFilename (run ts s')) = true /\
  (forallb (fun t => negb (script_stores t)) ts = true ->
   currentBlob (run ts s') = VBlob b /\
   currentFilename (run ts s') = currentFilename s').
Proof.
  intros H Hl Hb s'.
  destruct (export_step ev b s H Hl Hb) as (Eb & Ef & _ & _ & _ & _ & Er).
  fold s' in Eb, Ef.
  assert (Ha : has_artifact s').
  { split; [rewrite Eb; reflexivity | rewrite Ef; apply js_or_default_truthy]. }
  split; [exact Eb |].
  split; [exact Ef |].
  split; [rewrite Ef; exact Er |].
  split; [apply (run_artifact ts s' Ha) |].
  split; [apply (run_artifact ts s' Ha) |].
  intros Hts. destruct (run_keeps_artifact ts s' Hts) as [-> ->].
  split; [exact Eb | reflexivity].
Qed.

Lemma export_stores_artifact_witness :
  let first := export_event (VObj [("blob", VBlob (mkBlob [Byte.x00] "model/stl"));
                                   ("filename", VStr "old.stl")]) in
  let second := export_event (VObj [("blob", VBlob (mkBlob [Byte.x01; Byte.x02] ""));
                                    ("filename", VStr "part.stl")]) in
  let later := [ClickDownload; Receive (export_event (VObj [])); ClickGetStl;
                Receive (ready_event "1.0")] in
  let s' := step (step fresh_page (Receive first)) (Receive second) in
  currentBlob s' = VBlob (mkBlob [Byte.x01; Byte.x02] "") /\
  currentFilename s' = VStr "part.stl" /\
  returns (handleMessage second (step fresh_page (Receive first))) = true /\
  currentBlob (run later s') = VBlob (mkBlob [Byte.x01; Byte.x02] "") /\
  currentFilename (run later s') = VStr "part.stl".
Proof.
  pose proof
    (export_stores_artifact
       (export_event (VObj [("blob", VBlob (mkBlob [Byte.x01; Byte.x02] ""));
                            ("filename", VStr "part.stl")]))
       (mkBlob [Byte.x01; Byte.x02] "")
       (step fresh_page
          (Receive (export_event
                      (VObj [("blob", VBlob (mkBlob [Byte.x00] "model/stl"));
                             ("filename", VStr "old.stl")]))))
       [ClickDownload; Receive (export_event (VObj [])); ClickGetStl;
        Receive (ready_event "1.0")]
       (export_event_tagged _) eq_refl eq_refl) as (Eb & Ef & Er & _ & _ & Ek).
  destruct (Ek eq_refl) as [Kb Kf].
  exact (conj Eb (conj Ef (conj Er (conj Kb Kf)))).
Defined.

(** C6 as stated fails on the filename: a payload whose [filename] is the
    empty string is stored under ['design.stl']. *)
Lemma empty_filename_replaced_by_default :
  let payload := VObj [("blob", VBlob (mkBlob [Byte.x00] "model/stl"));
                       ("filename", VStr "")] in
  let s' := step fresh_page (Receive (export_event payload)) in
  get payload "filename" = VStr "" /\
  currentFilename s' = VStr "design.stl" /\
  currentFilename s' <> get payload "filename".
Proof. vm_compute. repeat split. discriminate. Qed.

(** *** Unknown tags and absent data *)

(** C9. A message from the trusted origin whose [type] is truthy, whatever
    the type: when the type cannot be printed (line 194) or the payload
    cannot be written to the log ([JSON.stringify], line 149), the handler
    throws before the switch. The message does not reach the event log and
    is not dispatched, not even to the default branch: the console has at
    most the line of its receipt. No variable and no page element changes
    and nothing is posted. *)
Theorem unlogged_message_throws (ev : MessageEvent) (s : State) :
  origin ev = CADIT_ORIGIN ->
  truthy (get (data ev) "type") = true ->
  to_string_ok (get (data ev) "type") && loggable (payload_of ev) = false ->
  let s' := step s (Receive ev) in
  returns (handleMessage ev s) = false /\
  view s' = view s /\
  posted s' = posted s /\
  eventLog s' = eventLog s /\
  (console s' = console s \/ console s' = console s ++ [received_line ev]).
Proof.
  intros Ho Ht Hl s'. subst s'. unfold step. cbn [listener].
  destruct (handleMessage_unlogged ev s Ho Ht Hl) as (Hr & [-> | ->]);
    (split; [exact Hr |]); repeat split; auto.
Qed.

(** A tag outside the vocabulary with the payload [10n]. *)
Lemma unlogged_message_throws_witness :
  let ev := mkEvent CADIT_ORIGIN (encode (VStr "import-stl") (VBigInt 10)) in
  let s' := step fresh_page (Receive ev) in
  is_str (get (data ev) "type") "ready" = false /\
  is_str (get (data ev) "type") "export-stl" = false /\
  returns (handleMessage ev fresh_page) = false /\
  view s' = view fresh_page /\
  posted s' = posted fresh_page /\
  eventLog s' = eventLog fresh_page /\
  (console s' = console fresh_page \/
   console s' = console fresh_page ++ [received_line ev]).
Proof.
  split; [reflexivity |]. split; [reflexivity |].
  exact (unlogged_message_throws
           (mkEvent CADIT_ORIGIN (encode (VStr "import-stl") (VBigInt 10)))
           fresh_page eq_refl eq_refl eq_refl).
Defined.

(** C10, as the code has it. On an event from the trusted origin whose data
    is [null] or [undefined] the destructuring throws a TypeError before
    anything is written. Any other data without a truthy [type] is dropped
    without a throw and without a trace, and that includes the data that are
    no objects: strings, numbers and booleans. *)
Theorem nullish_data_throws (ev : MessageEvent) (s : State) :
  origin ev = CADIT_ORIGIN ->
  (nullish (data ev) = true ->
   exists msg, handleMessage ev s = Throw (TypeError msg) s) /\
  (nullish (data ev) = false -> truthy (get (data ev) "type") = false ->
   handleMessage ev s = Ok tt s) /\
  (primitive (data ev) = true -> handleMessage ev s = Ok tt s).
Proof.
  intros Ho. unfold handleMessage. rewrite (origin_eqb ev _ Ho). cbn [negb].
  repeat split.
  - intros Hn. rewrite (decode_nullish _ Hn). eexists. reflexivity.
  - intros Hn Ht. rewrite (decode_falsy _ Hn Ht). reflexivity.
  - intros Hp. rewrite (primitive_decode _ Hp). reflexivity.
Qed.

Lemma nullish_data_throws_witness :
  (exists msg,
     handleMessage (mkEvent CADIT_ORIGIN VNull) fresh_page
     = Throw (TypeError msg) fresh_page) /\
  handleMessage (mkEvent CADIT_ORIGIN (VObj [("payload", VNull)])) fresh_page
  = Ok tt fresh_page.
Proof.
  split.
  - exact (proj1 (nullish_data_throws (mkEvent CADIT_ORIGIN VNull) fresh_page eq_refl)
             eq_refl).
  - exact (proj1 (proj2 (nullish_data_throws
                           (mkEvent CADIT_ORIGIN (VObj [("payload", VNull)]))
                           fresh_page eq_refl))
             eq_refl eq_refl).
Defined.


(** Data that is an object does not make the handler total either: an
    export whose [blob] is a string is stored and then makes [loadSTL]
    throw. *)
Lemma export_with_non_blob_throws :
  let r := handleMessage (export_event (VObj [("blob", VStr "solid part")])) fresh_page in
  returns r = false /\ currentBlob (final r) = VStr "solid part".
Proof. vm_compute. split; reflexivity. Qed.

(** C10 as stated fails in its last clause: the data of this event is a
    string, no object, and the handler returns. *)
Lemma primitive_data_is_discarded :
  let ev := mkEvent CADIT_ORIGIN (VStr "hello") in
  is_object (data ev) = false /\
  returns (handleMessage ev fresh_page) = true /\
  handleMessage ev fresh_page = Ok tt fresh_page.
Proof. repeat split. Qed.

End ScriptFacts.

(** ** The second copy of the script

    The same statements on [Part000], where they hold there; where the copy
    differs from [script.js] the lemma says what it does. *)
Module Part000Facts.
Import Part000.

Ltac open_step :=
  cbv beta iota zeta delta
    [step listener handleMessage handleReady sendInit sendMessage
     handleExportStl requestStl logEvent
     console_out alert postMessage bind gets modify ret throw final returns
     render stringify negb].

Ltac open_state :=
  cbn [set_isReady set_contentWindow set_getStlBtn_disabled set_statusText
       set_eventLog set_posted set_console set_alerts set_downloads
       isReady contentWindow getStlBtn_disabled statusText eventLog posted
       console alerts downloads].

Ltac eval_sent :=
  repeat match goal with
  | |- context [to_string_ok (VStr ?a)] => change (to_string_ok (VStr a)) with true
  | |- context [truthy init_payload] => change (truthy init_payload) with true
  | |- context [json_ok init_payload] => change (json_ok init_payload) with true
  | |- context [truthy VNull] => change (truthy VNull) with false
  | |- context [String.eqb ?a ?b] =>
      let r := eval vm_compute in (String.eqb a b) in
      lazymatch r with true => idtac | false => idtac end;
      change (String.eqb a b) with r
  end; cbv beta iota.

Ltac break_step :=
  repeat (cbv beta iota; open_state;
          match goal with
          | |- context [match ?x with _ => _ end] =>
              lazymatch x with
              | context [match _ with _ => _ end] => fail
              | _ => destruct x eqn:?
              end
          end).

Ltac crush_step := open_step; eval_sent; break_step.

Lemma part000_run_invariant (P : State -> Prop) :
  (forall s t, P s -> P (step s t)) -> forall ts s, P s -> P (run ts s).
Proof.
  intros Hstep ts. induction ts as [| t ts IH]; intros s H; [exact H |].
  apply IH, Hstep, H.
Qed.

Lemma part000_run_cons t ts s : run (t :: ts) s = run ts (step s t).
Proof. reflexivity. Qed.

Lemma part000_dispatch ev s :
  origin ev = CADIT_ORIGIN ->
  truthy (get (data ev) "type") = true ->
  to_string_ok (get (data ev) "type") = true ->
  loggable (payload_of ev) = true ->
  handleMessage ev s =
  (if is_str (get (data ev) "type") "ready" then handleReady (payload_of ev)
   else if is_str (get (data ev) "type") "export-stl"
        then handleExportStl (payload_of ev)
        else console_out LLog
               [CText [Lit "Unknown message type:"]; CVal (get (data ev) "type")])
    (set_eventLog
       (mkLog "received" "RECV" (get (data ev) "type")
          (if truthy (payload_of ev) then Some (payload_of ev) else None)
          :: eventLog s) s).
Proof.
  intros Ho Ht Hr Hl. unfold handleMessage.
  rewrite (origin_eqb ev _ Ho), (decode_truthy _ Ht). cbn [negb].
  unfold loggable in Hl. unfold payload_of in *.
  cbv beta iota zeta delta [bind render stringify logEvent modify ret throw].
  rewrite Hr. cbv beta iota.
  destruct (truthy (get (data ev) "payload")); cbn [negb orb] in Hl;
    [rewrite Hl |]; reflexivity.
Qed.

(** A message handled by the copy, test by test. *)
Lemma part000_receive_step ev s :
  step s (Receive ev) =
  if origin ev =? CADIT_ORIGIN then
    if nullish (data ev) then s
    else if truthy (get (data ev) "type") then
      if loggable (payload_of ev) && to_string_ok (get (data ev) "type") then
        final
          ((if is_str (get (data ev) "type") "ready"
            then handleReady (payload_of ev)
            else if is_str (get (data ev) "type") "export-stl"
                 then handleExportStl (payload_of ev)
                 else console_out LLog
                        [CText [Lit "Unknown message type:"];
                         CVal (get (data ev) "type")])
             (set_eventLog
                (mkLog "received" "RECV" (get (data ev) "type")
                   (if truthy (payload_of ev) then Some (payload_of ev) else None)
                   :: eventLog s) s))
      else s
    else set_console
           (console s ++
            [mkConsole LWarn
               [CText [Lit "Received message without type:"]; CVal (data ev)]])
           s
  else s.
Proof.
  unfold step. cbn [listener].
  destruct (origin ev =? CADIT_ORIGIN) eqn:Ho;
    [| unfold handleMessage; rewrite Ho; reflexivity].
  apply String.eqb_eq in Ho.
  destruct (nullish (data ev)) eqn:Hn.
  { unfold handleMessage. rewrite (origin_eqb ev _ Ho), (decode_nullish _ Hn).
    reflexivity. }
  destruct (truthy (get (data ev) "type")) eqn:Ht.
  - destruct (loggable (payload_of ev)) eqn:Hl; cbn [andb].
    + destruct (to_string_ok (get (data ev) "type")) eqn:Hp.
      * rewrite (part000_dispatch ev s Ho Ht Hp Hl). reflexivity.
      * unfold handleMessage.
        rewrite (origin_eqb ev _ Ho), (decode_truthy _ Ht). cbn [negb].
        unfold loggable, payload_of in Hl.
        cbv beta iota zeta delta [bind render stringify logEvent modify ret throw].
        rewrite Hp.
        destruct (truthy (get (data ev) "payload")); cbn [negb orb] in Hl;
          [rewrite Hl |]; reflexivity.
    + unfold handleMessage.
      rewrite (origin_eqb ev _ Ho), (decode_truthy _ Ht). cbn [negb].
      unfold loggable, payload_of in Hl.
      cbv beta iota zeta delta [bind render stringify logEvent modify ret throw].
      destruct (truthy (get (data ev) "payload")); cbn [negb orb] in Hl;
        [| discriminate Hl].
      rewrite Hl. reflexivity.
  - unfold handleMessage.
    rewrite (origin_eqb ev _ Ho), (decode_falsy _ Hn Ht). reflexivity.
Qed.

(** The origin gate of the copy: an event from another origin changes
    nothing at all, the console included. *)
Lemma part000_untrusted_origin_dropped ev s :
  origin ev <> CADIT_ORIGIN -> handleMessage ev s = Ok tt s.
Proof.
  intros H. apply String.eqb_neq in H. unfold handleMessage. rewrite H. reflexivity.
Qed.

Lemma part000_step_addressed s t :
  Forall addressed (posted s) -> Forall addressed (posted (step s t)).
Proof.
  intros H. destruct t as [ev | | | present]; crush_step; cbn;
    try exact H;
    (apply Forall_app; split; [exact H |]);
    repeat constructor; discriminate.
Qed.

(** Outbound addressing in the copy, the init button included. *)
Lemma part000_outbound_addressed ts : forall s,
  Forall addressed (posted s) -> Forall addressed (posted (run ts s)).
Proof.
  apply (part000_run_invariant (fun s => Forall addressed (posted s))),
    part000_step_addressed.
Qed.

(** Every ready message that the handler takes to its end is answered by
    one init message in the copy too, and so is every click on the init
    button. *)
Lemma part000_ready_step ev s :
  ready_message ev ->
  let s' := step s (Receive ev) in
  returns (handleMessage ev s) = true /\
  isReady s' = true /\
  statusText s' = [Lit "Initialized with partner name: MyApp"] /\
  getStlBtn_disabled s' = false /\
  contentWindow s' = contentWindow s /\
  posted s' = posted s ++ (if contentWindow s then [init_message] else []).
Proof.
  intros ([Ho Hty] & Hl & Hv).
  assert (Ht : truthy (get (data ev) "type") = true) by (rewrite Hty; reflexivity).
  assert (Hr : to_string_ok (get (data ev) "type") = true) by (rewrite Hty; reflexivity).
  unfold step. cbn [listener]. rewrite (part000_dispatch ev s Ho Ht Hr Hl), Hty.
  change (is_str (VStr "ready") "ready") with true. cbv iota.
  unfold payload_of. open_step. rewrite Hv. eval_sent. open_state.
  destruct (contentWindow s) eqn:Hc; cbn; rewrite ?app_nil_r, ?Hc; repeat split.
Qed.

Lemma part000_ready_run evs : forall s,
  Forall ready_message evs ->
  posted (run (map Receive evs) s) =
  posted s ++ repeat init_message (if contentWindow s then List.length evs else 0).
Proof.
  induction evs as [| ev evs IH]; intros s H.
  - cbn. destruct (contentWindow s); rewrite app_nil_r; reflexivity.
  - inversion H as [| ? ? Hev Hrest]; subst. cbn [map]. rewrite part000_run_cons.
    destruct (part000_ready_step ev s Hev) as (_ & _ & _ & _ & Hc & Hp).
    rewrite (IH _ Hrest), Hc, Hp.
    destruct (contentWindow s); cbn [List.length repeat]; rewrite <- app_assoc;
      reflexivity.
Qed.

Lemma part000_step_isReady_kept s t : isReady s = true -> isReady (step s t) = true.
Proof.
  intros H. destruct t as [ev | | | present]; crush_step; cbn; congruence.
Qed.

(** The export request of the copy. *)
Lemma part000_requestStl_cases s :
  exists s',
    requestStl s = Ok tt s' /\
    isReady s' = isReady s /\
    posted s' =
      posted s ++ (if isReady s && contentWindow s then [get_stl_message] else []) /\
    alerts s' =
      alerts s ++
      (if isReady s then []
       else ["CADit is not ready yet. Please wait for it to load."]).
Proof.
  destruct (isReady s) eqn:Hr, (contentWindow s) eqn:Hc; cbn [andb negb];
    open_step; eval_sent; rewrite ?Hr, ?Hc; cbv beta iota;
    (eexists; split; [reflexivity |]); cbn;
    rewrite ?app_nil_r, ?Hr, ?Hc; repeat split.
Qed.

(** An export without a blob in the copy: an error line on the console and
    nothing else; the status line stays as it was (the copy stores no
    artifact). *)
Lemma part000_export_without_blob ev s :
  tagged "export-stl" ev ->
  loggable (payload_of ev) = true ->
  truthy (opt_get (payload_of ev) "blob") = false ->
  exists s',
    handleMessage ev s = Ok tt s' /\
    statusText s' = statusText s /\
    console s' =
      console s ++ [mkConsole LError [CText [Lit "No blob in export-stl payload"]]] /\
    alerts s' = alerts s /\
    isReady s' = isReady s /\ posted s' = posted s /\ downloads s' = downloads s.
Proof.
  intros [Ho Hty] Hl Hb.
  assert (Ht : truthy (get (data ev) "type") = true) by (rewrite Hty; reflexivity).
  assert (Hr : to_string_ok (get (data ev) "type") = true) by (rewrite Hty; reflexivity).
  rewrite (part000_dispatch ev s Ho Ht Hr Hl), Hty.
  change (is_str (VStr "export-stl") "ready") with false.
  change (is_str (VStr "export-stl") "export-stl") with true. cbv iota.
  unfold handleExportStl. rewrite Hb.
  eexists; split; [reflexivity |]. repeat split.
Qed.

(** An unknown tag in the copy. *)
Lemma part000_unknown_tag_ignored ev s :
  origin ev = CADIT_ORIGIN ->
  truthy (get (data ev) "type") = true ->
  to_string_ok (get (data ev) "type") = true ->
  loggable (payload_of ev) = true ->
  is_str (get (data ev) "type") "ready" = false ->
  is_str (get (data ev) "type") "export-stl" = false ->
  exists s',
    handleMessage ev s = Ok tt s' /\
    isReady s' = isReady s /\ statusText s' = statusText s /\
    getStlBtn_disabled s' = getStlBtn_disabled s /\
    posted s' = posted s /\ alerts s' = alerts s /\ downloads s' = downloads s /\
    console s' =
      console s ++
      [mkConsole LLog
         [CText [Lit "Unknown message type:"]; CVal (get (data ev) "type")]].
Proof.
  intros Ho Ht Hp Hl Hr He.
  rewrite (part000_dispatch ev s Ho Ht Hp Hl), Hr, He.
  eexists; split; [reflexivity |]. repeat split.
Qed.

(** A payload that cannot be logged in the copy: the handler throws in
    [logEvent], before the switch, and nothing changes. *)
Lemma part000_unlogged_message_throws ev s :
  origin ev = CADIT_ORIGIN ->
  truthy (get (data ev) "type") = true ->
  to_string_ok (get (data ev) "type") && loggable (payload_of ev) = false ->
  returns (handleMessage ev s) = false /\ step s (Receive ev) = s.
Proof.
  intros Ho Ht Hl. unfold step. cbn [listener]. unfold handleMessage.
  rewrite (origin_eqb ev _ Ho), (decode_truthy _ Ht). cbn [negb].
  unfold loggable, payload_of in Hl.
  cbv beta iota zeta delta [bind render stringify logEvent modify ret throw].
  destruct (truthy (get (data ev) "payload")); cbn [negb orb] in Hl.
  - destruct (json_ok (get (data ev) "payload")); [| split; reflexivity].
    rewrite andb_true_r in Hl. rewrite Hl. split; reflexivity.
  - rewrite andb_true_r in Hl. rewrite Hl. split; reflexivity.
Qed.

(** Absent data in the copy: the same TypeError; data without a tag is
    dropped with a warning on the console. *)
Lemma part000_nullish_data_throws ev s :
  origin ev = CADIT_ORIGIN ->
  (nullish (data ev) = true ->
   exists msg, handleMessage ev s = Throw (TypeError msg) s) /\
  (primitive (data ev) = true -> returns (handleMessage ev s) = true).
Proof.
  intros Ho. unfold handleMessage. rewrite (origin_eqb ev _ Ho). cbn [negb].
  split.
  - intros Hn. rewrite (decode_nullish _ Hn). eexists. reflexivity.
  - intros Hp. rewrite (primitive_decode _ Hp). reflexivity.
Qed.

End Part000Facts.

(** ** A missing blob, in the two copies *)

(** C5, as the code has it. An [export-stl] message from the trusted origin
    whose payload can be logged and has no blob ([null] or missing payload,
    missing or falsy [blob]). In [script.js] the handler returns, the
    status line shows the error, the stored blob and filename are as
    before, nothing is posted, loaded or downloaded. In the second copy,
    which stores no artifact, the handler returns with an error line on the
    console and nothing else: the status line is as before, no alert is
    raised and nothing is downloaded. *)
Theorem export_without_blob_reports_error
  (ev : MessageEvent) (s : Script.State) (ev0 : MessageEvent) (s0 : Part000.State) :
  Script.tagged "export-stl" ev ->
  Script.loggable (Script.payload_of ev) = true ->
  truthy (opt_get (Script.payload_of ev) "blob") = false ->
  Part000.tagged "export-stl" ev0 ->
  Part000.loggable (Part000.payload_of ev0) = true ->
  truthy (opt_get (Part000.payload_of ev0) "blob") = false ->
  (exists s',
     Script.handleMessage ev s = Ok tt s' /\
     Script.statusText s' = [Lit "Error: No STL data received"] /\
     Script.currentBlob s' = Script.currentBlob s /\
     Script.currentFilename s' = Script.currentFilename s /\
     Script.console s' =
       Script.console s ++
       [Script.received_line ev;
        mkConsole LError [CText [Lit "No blob in export-stl payload"]]] /\
     Script.posted s' = Script.posted s /\
     Script.loaded s' = Script.loaded s /\
     Script.downloads s' = Script.downloads s) /\
  (exists s0',
     Part000.handleMessage ev0 s0 = Ok tt s0' /\
     Part000.statusText s0' = Part000.statusText s0 /\
     Part000.console s0' =
       Part000.console s0 ++
       [mkConsole LError [CText [Lit "No blob in export-stl payload"]]] /\
     Part000.alerts s0' = Part000.alerts s0 /\
     Part000.posted s0' = Part000.posted s0 /\
     Part000.downloads s0' = Part000.downloads s0).
Proof.
  intros H Hl Hb H0 Hl0 Hb0. split.
  - rewrite (ScriptFacts.export_missing_step ev s H Hl Hb).
    eexists; split; [reflexivity |]. repeat split.
  - destruct (Part000Facts.part000_export_without_blob ev0 s0 H0 Hl0 Hb0)
      as (s0' & E & A & B & C & _ & D & F).
    exists s0'. repeat split; assumption.
Qed.

Lemma export_without_blob_reports_error_witness :
  let prior := Script.step Script.fresh_page
                 (Script.Receive
                    (Script.export_event
                       (VObj [("blob", VBlob (mkBlob [] "model/stl"));
                              ("filename", VStr "part.stl")]))) in
  (exists s',
     Script.handleMessage (Script.export_event (VObj [])) prior = Ok tt s' /\
     Script.statusText s' = [Lit "Error: No STL data received"] /\
     Script.currentBlob s' = VBlob (mkBlob [] "model/stl") /\
     Script.currentFilename s' = VStr "part.stl" /\
     Script.console s' =
       Script.console prior ++
       [Script.received_line (Script.export_event (VObj []));
        mkConsole LError [CText [Lit "No blob in export-stl payload"]]] /\
     Script.posted s' = Script.posted prior /\
     Script.loaded s' = Script.loaded prior /\
     Script.downloads s' = Script.downloads prior) /\
  (exists s0',
     Part000.handleMessage (Part000.export_event (VObj [])) Part000.fresh_page
     = Ok tt s0' /\
     Part000.statusText s0' = [Lit "Waiting for CADit..."] /\
     Part000.console s0' =
       [mkConsole LError [CText [Lit "No blob in export-stl payload"]]] /\
     Part000.alerts s0' = [] /\
     Part000.posted s0' = [] /\
     Part000.downloads s0' = []).
Proof.
  exact (export_without_blob_reports_error
           (Script.export_event (VObj []))
           (Script.step Script.fresh_page
              (Script.Receive
                 (Script.export_event
                    (VObj [("blob", VBlob (mkBlob [] "model/stl"));
                           ("filename", VStr "part.stl")]))))
           (Part000.export_event (VObj [])) Part000.fresh_page
           (ScriptFacts.export_event_tagged (VObj [])) eq_refl eq_refl
           (conj eq_refl eq_refl) eq_refl eq_refl).
Defined.

(** C5 as stated fails in the second copy: the missing blob is reported on
    the console only, the status line the user sees is left as it was and no
    alert is raised. *)
Lemma part000_missing_blob_not_shown :
  let s := Part000.fresh_page in
  let s' := Part000.step s (Part000.Receive (Part000.export_event (VObj []))) in
  Part000.statusText s' = Part000.statusText s /\
  Part000.statusText s' = [Lit "Waiting for CADit..."] /\
  Part000.alerts s' = [] /\
  Part000.console s' =
    [mkConsole LError [CText [Lit "No blob in export-stl payload"]]].
Proof. vm_compute. repeat split. Qed.

(** * Further properties of the two scripts *)

Module ScriptCoverage.
Import Script ScriptFacts.

Lemma run_invariant_on (f : Trigger -> bool) (P : State -> Prop) :
  (forall s t, f t = true -> P s -> P (step s t)) ->
  forall ts s, forallb f ts = true -> P s -> P (run ts s).
Proof.
  intros Hstep ts. induction ts as [| t ts IH]; intros s Hf H; [exact H |].
  cbn [forallb] in Hf. apply andb_prop in Hf. destruct Hf as [Ht Hts].
  rewrite run_cons. apply (IH _ Hts), (Hstep _ _ Ht), H.
Qed.

(** *** What is displayed for a payload *)

Lemma get_blob_container d b :
  get d "blob" = VBlob b ->
  truthy d = true /\
  forall rest k,
    get (VObj (spread_with (spread_props d) "blob" rest)) k =
    if "blob" =? k then subst (VObj (spread_with (spread_props d) "blob" rest)) 0 rest
    else get d k.
Proof.
  intros H.
  assert (Hc : get d = fun k => subst d 0 (lookup k (own_props d))).
  { destruct d; try reflexivity; cbn in H;
      repeat match type of H with
      | (if ?c then _ else _) = _ => destruct c
      end; discriminate H. }
  split.
  - destruct d; try reflexivity; cbn in H;
      repeat match type of H with
      | (if ?c then _ else _) = _ => destruct c
      end; discriminate H.
  - intros rest k. cbn [get own_props]. destruct ("blob" =? k) eqn:E.
    + apply String.eqb_eq in E. subst k. rewrite lookup_spread_same. reflexivity.
    + rewrite lookup_spread_other
        by (intros ->; rewrite String.eqb_refl in E; discriminate E).
      unfold spread_props.
      rewrite (lookup_map_snd (fun x => lift 0 (subst d 0 x))) by reflexivity.
      rewrite subst_lift, Hc. reflexivity.
Qed.

(** X1. The data shown in the event log never holds a Blob under [blob]:
    where the payload has one, the line shows its size and type instead; every
    other key of the payload is shown as it is, and a payload without a Blob
    under [blob] is shown unchanged. *)
Theorem displayData_hides_blob (d : value) :
  (forall b, get (displayData d) "blob" <> VBlob b) /\
  (forall k, k <> "blob" -> get (displayData d) k = get d k) /\
  (forall b, get d "blob" = VBlob b ->
     get (displayData d) "blob" =
     VStr ("Blob(" ++ dec (blob_size b) ++ " bytes, " ++ blob_type b ++ ")")) /\
  ((forall b, get d "blob" <> VBlob b) -> displayData d = d).
Proof.
  unfold displayData. repeat split.
  - intros b. destruct (truthy d) eqn:Ht.
    + destruct (get d "blob") eqn:Hg; try (rewrite Hg; discriminate).
      destruct (get_blob_container d _ Hg) as [_ Hk]. rewrite Hk. discriminate.
    + destruct d; cbn in Ht |- *; discriminate.
  - intros k Hk. destruct (truthy d); [| reflexivity].
    destruct (get d "blob") eqn:Hg; try reflexivity.
    destruct (get_blob_container d _ Hg) as [_ Hs]. rewrite Hs.
    destruct ("blob" =? k) eqn:E; [| reflexivity].
    apply String.eqb_eq in E. congruence.
  - intros b Hb. destruct (get_blob_container d _ Hb) as [-> Hs].
    rewrite Hb, Hs. reflexivity.
  - intros H. destruct (truthy d); [| reflexivity].
    destruct (get d "blob") eqn:Hg; try reflexivity.
    exfalso. exact (H _ eq_refl).
Qed.

(** *** What the page posts, and when *)

Lemma step_silent s t :
  (isReady s = false -> posted s = []) ->
  isReady (step s t) = false -> posted (step s t) = [].
Proof.
  intros H. destruct t as [ev | | | present]; crush_step; cbn;
    try discriminate; try congruence; auto.
Qed.

(** X2. The page never speaks first: from the evaluation of the script on,
    whatever arrives and whatever is clicked, nothing has been posted as long
    as the ready flag is not set. *)
Theorem nothing_posted_before_ready
  (ts : list Trigger) (cw g d : bool) (status : text) (display : string)
  (log : list LogEntry) :
  isReady (run ts (page_loaded cw g d status display log)) = false ->
  posted (run ts (page_loaded cw g d status display log)) = [].
Proof.
  apply (run_invariant (fun s => isReady s = false -> posted s = [])).
  - exact step_silent.
  - reflexivity.
Qed.

Lemma nothing_posted_before_ready_witness :
  posted (run [ClickGetStl;
               Receive (export_event (VObj [("blob", VBlob (mkBlob [] ""))]));
               Receive (mkEvent "https://app.cadit.com"
                          (encode (VStr "ready") VNull));
               ClickDownload]
            fresh_page) = [].
Proof.
  exact (nothing_posted_before_ready
           [ClickGetStl;
            Receive (export_event (VObj [("blob", VBlob (mkBlob [] ""))]));
            Receive (mkEvent "https://app.cadit.com" (encode (VStr "ready") VNull));
            ClickDownload]
           true true true [Lit "Waiting for CADit..."] "none" [] eq_refl).
Defined.

Lemma step_vocabulary s t :
  Forall (fun p => p = init_message \/ p = get_stl_message) (posted s) ->
  Forall (fun p => p = init_message \/ p = get_stl_message) (posted (step s t)).
Proof.
  intros H. destruct t as [ev | | | present]; crush_step; cbn;
    try exact H;
    (apply Forall_app; split; [exact H |]);
    (constructor; [first [left; reflexivity | right; reflexivity] | constructor]).
Qed.

(** X3. The page posts two messages and no other: the init message with the
    partner name and the feature list, and the [get-stl] message with a
    [null] payload, each to [CADIT_ORIGIN]. Nothing of what it receives
    finds its way into what it posts. *)
Theorem posts_only_init_and_get_stl
  (ts : list Trigger) (cw g d : bool) (status : text) (display : string)
  (log : list LogEntry) :
  Forall (fun p => p = init_message \/ p = get_stl_message)
    (posted (run ts (page_loaded cw g d status display log))).
Proof.
  apply (run_invariant
           (fun s => Forall (fun p => p = init_message \/ p = get_stl_message)
                       (posted s))).
  - exact step_vocabulary.
  - constructor.
Qed.

Lemma step_sent_log base s t :
  sent_types (eventLog s) = rev (posted_types (posted s)) ++ base ->
  sent_types (eventLog (step s t)) = rev (posted_types (posted (step s t))) ++ base.
Proof.
  unfold sent_types, posted_types.
  intros H. destruct t as [ev | | | present]; crush_step; cbn;
    rewrite ?map_app, ?rev_app_distr; cbn; rewrite ?H; reflexivity.
Qed.

(** X4. The event log panel and the posted messages agree: its SENT lines,
    read from the oldest to the newest, are the line written when the page
    loaded followed by one line for each posted message, in the order of
    posting and under that message's type. *)
Theorem sent_lines_match_posted
  (ts : list Trigger) (cw g d : bool) (status : text) (display : string) :
  rev (sent_types (eventLog (run ts (page_loaded cw g d status display [])))) =
  VStr "page-loaded"
    :: posted_types (posted (run ts (page_loaded cw g d status display []))).
Proof.
  assert (H : sent_types (eventLog (run ts (page_loaded cw g d status display []))) =
              rev (posted_types (posted (run ts (page_loaded cw g d status display []))))
              ++ [VStr "page-loaded"]).
  { apply (run_invariant
             (fun s => sent_types (eventLog s) =
                       rev (posted_types (posted s)) ++ [VStr "page-loaded"])).
    - intros s t. apply step_sent_log.
    - reflexivity. }
  rewrite H, rev_app_distr, rev_involutive. reflexivity.
Qed.

(** *** The page follows the state *)

Lemma step_ready_enables s t :
  script_ready_prints t = true ->
  (isReady s = true -> getStlBtn_disabled s = false) ->
  isReady (step s t) = true -> getStlBtn_disabled (step s t) = false.
Proof.
  intros Hp H. destruct t as [ev | | | present];
    [| crush_step; cbn; intros;
       first [reflexivity | apply H; assumption | congruence] ..].
  cbn [script_ready_prints script_ready_trigger] in Hp.
  rewrite receive_step. unfold payload_of in *.
  destruct (origin ev =? CADIT_ORIGIN); [| break_step; cbn; exact H].
  destruct (truthy (get (data ev) "type")); [| exact H].
  destruct (to_string_ok (get (data ev) "type")); [| exact H].
  destruct (loggable (get (data ev) "payload")); [| cbn; exact H].
  destruct (is_str (get (data ev) "type") "ready").
  - cbn [andb negb orb] in Hp. rewrite (handleReady_eq _ _ Hp), sendInit_eq.
    cbn. destruct (contentWindow s); reflexivity.
  - destruct (is_str (get (data ev) "type") "export-stl");
      open_step; break_step; cbn; intros;
      first [apply H; assumption | congruence].
Qed.

Lemma step_enabled_ready s t :
  (getStlBtn_disabled s = false -> isReady s = true) ->
  getStlBtn_disabled (step s t) = false -> isReady (step s t) = true.
Proof.
  intros H. destruct t as [ev | | | present]; crush_step; cbn;
    intros;
    first [reflexivity | assumption | discriminate | apply H; assumption
          | exfalso; discriminate (H ltac:(assumption))].
Qed.

Lemma step_preview s t :
  (truthy (currentBlob s) = true ->
   downloadBtn_disabled s = false /\ previewContainer_display s = "block" /\
   renderer s = true) ->
  truthy (currentBlob (step s t)) = true ->
  downloadBtn_disabled (step s t) = false /\
  previewContainer_display (step s t) = "block" /\
  renderer (step s t) = true.
Proof.
  intros H. destruct t as [ev | | | present]; crush_step; cbn;
    intros; try (apply H; first [assumption | congruence]);
    repeat split; congruence.
Qed.

(** X5. The page follows the state. Whenever a blob is stored the download
    button is enabled, the preview is displayed and the viewer has been
    built. On a page whose export button starts disabled, the button is
    enabled only when the ready flag is set; and the flag goes with an
    enabled button as long as no ready message came with a version that
    cannot be printed (on such a message [handleReady] sets the flag and
    throws before it gets to the button). *)
Theorem buttons_follow_state
  (ts : list Trigger) (cw d : bool) (status : text) (display : string)
  (log : list LogEntry) :
  let s := run ts (page_loaded cw true d status display log) in
  (truthy (currentBlob s) = true ->
   downloadBtn_disabled s = false /\ previewContainer_display s = "block" /\
   renderer s = true) /\
  (getStlBtn_disabled s = false -> isReady s = true) /\
  (forallb script_ready_prints ts = true ->
   isReady s = true -> getStlBtn_disabled s = false).
Proof.
  cbv zeta. split; [| split].
  - apply (run_invariant
             (fun s => truthy (currentBlob s) = true ->
                       downloadBtn_disabled s = false /\
                       previewContainer_display s = "block" /\ renderer s = true)).
    + exact step_preview.
    + intros H; discriminate H.
  - apply (run_invariant (fun s => getStlBtn_disabled s = false -> isReady s = true)).
    + exact step_enabled_ready.
    + intros H; discriminate H.
  - intros Hts.
    apply (run_invariant_on script_ready_prints
             (fun s => isReady s = true -> getStlBtn_disabled s = false)).
    + exact step_ready_enables.
    + exact Hts.
    + intros H; discriminate H.
Qed.

Lemma step_viewer_first s t :
  (Forall (fun f => In (fst f) (loaded s)) (downloads s) /\
   (forall b, currentBlob s = VBlob b -> In b (loaded s))) ->
  Forall (fun f => In (fst f) (loaded (step s t))) (downloads (step s t)) /\
  (forall b, currentBlob (step s t) = VBlob b -> In b (loaded (step s t))).
Proof.
  intros [H1 H2].
  assert (Hgrow : forall extra,
             Forall (fun f => In (fst f) (loaded s ++ extra)) (downloads s)).
  { intros extra. eapply Forall_impl; [| exact H1].
    intros f Hf. apply in_or_app. left. exact Hf. }
  destruct t as [ev | | | present]; crush_step; cbn;
    try (split; assumption).
  all: split;
    [ first [ apply Hgrow
            | apply Forall_app; split;
              [exact H1 | constructor; [cbn; apply H2; first [assumption | reflexivity] | constructor]]
            | exact H1 ]
    | intros b' Hb';
      first [ discriminate Hb'
            | injection Hb' as <-; apply in_or_app; right; left; reflexivity
            | apply H2; congruence ] ].
Qed.

(** X6. Nothing is downloaded that the viewer has not been given: every blob
    of a started download, and the stored blob when it is a Blob, is among the
    blobs handed to [loadSTL]. *)
Theorem downloads_were_shown
  (ts : list Trigger) (cw g d : bool) (status : text) (display : string)
  (log : list LogEntry) :
  let s := run ts (page_loaded cw g d status display log) in
  Forall (fun f => In (fst f) (loaded s)) (downloads s) /\
  (forall b, currentBlob s = VBlob b -> In b (loaded s)).
Proof.
  apply (run_invariant
           (fun s =>
              Forall (fun f => In (fst f) (loaded s)) (downloads s) /\
              (forall b, currentBlob s = VBlob b -> In b (loaded s)))).
  - exact step_viewer_first.
  - split; [constructor | intros b H; discriminate H].
Qed.

(** *** Download *)

Lemma downloadStl_blob s b :
  currentBlob s = VBlob b ->
  to_string_ok (currentFilename s) = true ->
  downloadStl s =
  Ok tt (set_statusText [Lit "Downloaded: "; Interp (currentFilename s)]
           (set_downloads (downloads s ++ [(b, currentFilename s)]) s)).
Proof.
  intros H Hf. unfold downloadStl. open_step. rewrite H. cbn. rewrite Hf.
  reflexivity.
Qed.

(** X7. The download button delivers the last export: after an
    [export-stl] message from the trusted origin whose payload can be
    logged and holds a Blob, under a filename (that of the message, or
    ['design.stl'] when that is empty or missing) that can be converted to
    a string, and whatever follows that stores no other artifact, a click
    on the download button starts one download of that Blob under that
    filename, says so in the status line and posts nothing. *)
Theorem download_delivers_last_export
  (ev : MessageEvent) (b : Blob) (s : State) (ts : list Trigger) :
  tagged "export-stl" ev ->
  loggable (payload_of ev) = true ->
  get (payload_of ev) "blob" = VBlob b ->
  to_string_ok (filename_of (payload_of ev)) = true ->
  forallb (fun t => negb (script_stores t)) ts = true ->
  let name := js_or (get (payload_of ev) "filename") (VStr "design.stl") in
  let s1 := run ts (step s (Receive ev)) in
  returns (downloadStl s1) = true /\
  downloads (step s1 ClickDownload) = downloads s1 ++ [(b, name)] /\
  statusText (step s1 ClickDownload) = [Lit "Downloaded: "; Interp name] /\
  posted (step s1 ClickDownload) = posted s1.
Proof.
  intros Hev Hl Hb Hn Hts name s1.
  destruct (export_step ev b s Hev Hl Hb) as (Hcb & Hcf & _).
  destruct (run_keeps_artifact ts (step s (Receive ev)) Hts) as [Hb1 Hf1].
  fold s1 in Hb1, Hf1. rewrite Hcb in Hb1. rewrite Hcf in Hf1.
  clearbody s1. unfold step. cbn [listener].
  rewrite (downloadStl_blob s1 b Hb1) by (rewrite Hf1; exact Hn).
  cbn. rewrite Hf1. repeat split.
Qed.

Lemma download_delivers_last_export_witness :
  let ev := export_event (VObj [("blob", VBlob (mkBlob [Byte.x73] "model/stl"))]) in
  let s1 := run [Receive (ready_event "1.0"); ClickGetStl;
                 Receive (export_event (VObj [("filename", VStr "empty.stl")]))]
              (step fresh_page (Receive ev)) in
  returns (downloadStl s1) = true /\
  downloads (step s1 ClickDownload) =
    downloads s1 ++ [(mkBlob [Byte.x73] "model/stl", VStr "design.stl")] /\
  statusText (step s1 ClickDownload) =
    [Lit "Downloaded: "; Interp (VStr "design.stl")] /\
  posted (step s1 ClickDownload) = posted s1.
Proof.
  exact (download_delivers_last_export
           (export_event (VObj [("blob", VBlob (mkBlob [Byte.x73] "model/stl"))]))
           (mkBlob [Byte.x73] "model/stl") fresh_page
           [Receive (ready_event "1.0"); ClickGetStl;
            Receive (export_event (VObj [("filename", VStr "empty.stl")]))]
           (export_event_tagged _) eq_refl eq_refl eq_refl eq_refl).
Defined.

Lemma step_no_artifact s t :
  script_stores t = false ->
  currentBlob s = VNull /\ downloads s = [] ->
  currentBlob (step s t) = VNull /\ downloads (step s t) = [].
Proof.
  intros Ht [Hb Hd]. destruct (step_keeps_artifact s t Ht) as [Hk _].
  split; [rewrite Hk; exact Hb |].
  destruct t as [ev | | | present].
  - crush_step; cbn; exact Hd.
  - crush_step; cbn; exact Hd.
  - open_step. rewrite Hb. cbn. exact Hd.
  - exact Hd.
Qed.

Lemma run_no_artifact ts : forall s,
  forallb (fun t => negb (script_stores t)) ts = true ->
  currentBlob s = VNull /\ downloads s = [] ->
  currentBlob (run ts s) = VNull /\ downloads (run ts s) = [].
Proof.
  induction ts as [| t ts IH]; intros s H Hs; [exact Hs |].
  cbn [forallb] in H. apply andb_true_iff in H. destruct H as [Ht Hts].
  apply negb_true_iff in Ht. apply (IH (step s t) Hts).
  apply step_no_artifact; assumption.
Qed.

(** X8. Without an export there is nothing to download: as long as no
    [export-stl] message with a truthy blob has come from the trusted origin,
    a click on the download button starts no download, raises the alert and
    leaves the status line alone. *)
Theorem download_without_export_alerts
  (ts : list Trigger) (cw g d : bool) (status : text) (display : string)
  (log : list LogEntry) :
  forallb (fun t => negb (script_stores t)) ts = true ->
  let s := run ts (page_loaded cw g d status display log) in
  downloads (step s ClickDownload) = [] /\
  alerts (step s ClickDownload) =
    alerts s ++ ["No STL file available. Request an export first."] /\
  statusText (step s ClickDownload) = statusText s.
Proof.
  intros H s.
  destruct (run_no_artifact ts (page_loaded cw g d status display log) H
              (conj eq_refl eq_refl)) as [Hb Hd].
  fold s in Hb, Hd. clearbody s. open_step. rewrite Hb. cbn.
  repeat split. exact Hd.
Qed.

Lemma download_without_export_alerts_witness :
  let s := run [Receive (ready_event "1.0"); ClickGetStl;
                Receive (export_event (VObj [("filename", VStr "part.stl")]));
                Receive (mkEvent "https://evil.example"
                           (encode (VStr "export-stl")
                              (VObj [("blob", VBlob (mkBlob [] ""))])))]
             fresh_page in
  downloads (step s ClickDownload) = [] /\
  alerts (step s ClickDownload) =
    alerts s ++ ["No STL file available. Request an export first."] /\
  statusText (step s ClickDownload) = statusText s.
Proof.
  exact (download_without_export_alerts
           [Receive (ready_event "1.0"); ClickGetStl;
            Receive (export_event (VObj [("filename", VStr "part.stl")]));
            Receive (mkEvent "https://evil.example"
                       (encode (VStr "export-stl")
                          (VObj [("blob", VBlob (mkBlob [] ""))])))]
           true true true [Lit "Waiting for CADit..."] "none" [] eq_refl).
Defined.

(** *** A blob that is no Blob *)

(** X9. An [export-stl] message from the trusted origin whose payload can
    be logged and whose [blob] is truthy but no Blob (a string, a number, a
    plain object) is stored and enables the download button before
    [loadSTL] throws on it: the handler does not return, the viewer gets
    nothing, the status line keeps its text, and a later click on the
    download button throws as well and starts no download. *)
Theorem export_of_non_blob_is_stored_then_throws (ev : MessageEvent) (s : State) :
  tagged "export-stl" ev ->
  loggable (payload_of ev) = true ->
  truthy (get (payload_of ev) "blob") = true ->
  (forall b, get (payload_of ev) "blob" <> VBlob b) ->
  let s' := step s (Receive ev) in
  returns (handleMessage ev s) = false /\
  currentBlob s' = get (payload_of ev) "blob" /\
  downloadBtn_disabled s' = false /\
  loaded s' = loaded s /\
  statusText s' = statusText s /\
  returns (downloadStl s') = false /\
  downloads (step s' ClickDownload) = downloads s.
Proof.
  intros H Hl Hb Hn s'. pose proof (tagged_truthy _ _ H ltac:(discriminate)) as Ht.
  pose proof (tagged_renders _ _ H) as Hr.
  destruct H as [Ho Hty]. subst s'. unfold step. cbn [listener].
  rewrite (handleMessage_dispatch ev s Ho Ht Hr Hl), Hty. eval_is_str.
  assert (Hnn : nullish (payload_of ev) = false).
  { destruct (payload_of ev); try reflexivity; discriminate Hb. }
  open_step. unfold opt_get. rewrite Hnn, Hb. cbv beta iota.
  destruct (get (payload_of ev) "blob") eqn:Hg;
    try (exfalso; exact (Hn _ eq_refl));
    cbn in Hb |- *; try discriminate Hb;
      destruct (renderer s); cbn; rewrite ?Hb; repeat split.
Qed.

Lemma export_of_non_blob_is_stored_then_throws_witness :
  let ev := export_event (VObj [("blob", VStr "solid part")]) in
  let s' := step fresh_page (Receive ev) in
  returns (handleMessage ev fresh_page) = false /\
  currentBlob s' = VStr "solid part" /\
  downloadBtn_disabled s' = false /\
  loaded s' = loaded fresh_page /\
  statusText s' = statusText fresh_page /\
  returns (downloadStl s') = false /\
  downloads (step s' ClickDownload) = downloads fresh_page.
Proof.
  apply (export_of_non_blob_is_stored_then_throws
           (export_event (VObj [("blob", VStr "solid part")])) fresh_page
           (export_event_tagged _) eq_refl eq_refl).
  intros b. discriminate.
Defined.

(** *** The status line without a window *)

Lemma requestStl_unsent s :
  isReady s = true -> contentWindow s = false ->
  requestStl s =
  Ok tt (set_statusText [Lit "Requesting STL export..."]
           (set_console
              (console s ++
               [mkConsole LError [CText [Lit "CADit iframe not available"]]])
              s)).
Proof. intros Hr Hc. open_step. rewrite Hr, Hc. reflexivity. Qed.

(** X10. The status line does not tell whether anything was sent: while the
    iframe has no window, a ready message from the trusted origin that the
    handler takes to its end still ends with the status 'Initialized with
    partner name: MyApp', and a click on the export button of a ready page
    with the status 'Requesting STL export...', and neither posts a
    message. *)
Theorem status_reports_unsent_messages (ev : MessageEvent) (s : State) :
  contentWindow s = false ->
  ready_message ev ->
  let s1 := step s (Receive ev) in
  let s2 := step s1 ClickGetStl in
  statusText s1 = [Lit "Initialized with partner name: MyApp"] /\
  posted s1 = posted s /\
  isReady s1 = true /\
  statusText s2 = [Lit "Requesting STL export..."] /\
  posted s2 = posted s.
Proof.
  intros Hc Hm s1 s2. destruct (ready_step ev s Hm) as (_ & Hv & Hp & _).
  fold s1 in Hv, Hp. rewrite Hc, app_nil_r in Hp.
  assert (Hs : statusText s1 = init_status /\ isReady s1 = true /\
               contentWindow s1 = false).
  { unfold view, session in Hv. cbn in Hv. injection Hv as. intuition congruence. }
  destruct Hs as (A & B & C). subst s2. clearbody s1.
  unfold step. cbn [listener]. rewrite (requestStl_unsent s1 B C). cbn.
  repeat split; assumption.
Qed.

Lemma status_reports_unsent_messages_witness :
  let s := step fresh_page (Frame false) in
  let s1 := step s (Receive (ready_event "1.0")) in
  let s2 := step s1 ClickGetStl in
  statusText s1 = [Lit "Initialized with partner name: MyApp"] /\
  posted s1 = posted s /\
  isReady s1 = true /\
  statusText s2 = [Lit "Requesting STL export..."] /\
  posted s2 = posted s.
Proof.
  exact (status_reports_unsent_messages (ready_event "1.0")
           (step fresh_page (Frame false)) eq_refl (ready_event_message "1.0")).
Defined.

(** *** Handshake and export do not depend on each other *)

Lemma ready_step_fields ev s :
  ready_message ev ->
  let s' := step s (Receive ev) in
  session s' = (true, currentBlob s, currentFilename s) /\
  posted s' = posted s ++ (if contentWindow s then [init_message] else []) /\
  contentWindow s' = contentWindow s /\
  getStlBtn_disabled s' = false /\
  downloadBtn_disabled s' = downloadBtn_disabled s /\
  previewContainer_display s' = previewContainer_display s /\
  renderer s' = renderer s /\ loaded s' = loaded s /\
  downloads s' = downloads s /\ alerts s' = alerts s /\
  statusText s' = init_status.
Proof.
  intros H s'. destruct (ready_step ev s H) as (_ & Hv & Hp & _).
  fold s' in Hv, Hp. clearbody s'. unfold view, session in Hv. cbn in Hv.
  injection Hv as. unfold session. intuition congruence.
Qed.

Lemma export_step_fields ev s :
  tagged "export-stl" ev ->
  let s' := step s (Receive ev) in
  isReady s' = isReady s /\ posted s' = posted s /\
  contentWindow s' = contentWindow s /\
  getStlBtn_disabled s' = getStlBtn_disabled s /\ alerts s' = alerts s /\
  downloads s' = downloads s.
Proof.
  intros [Ho Hty] s'. subst s'. crush_step; cbn; try (repeat split; fail);
    exfalso;
    repeat match goal with
    | E : decode (data ev) = Message _ _ |- _ =>
        apply decode_Message_inv in E; destruct E as (-> & -> & ?)
    end;
    rewrite Hty in *; discriminate.
Qed.

Lemma export_step_artifact_congr ev s1 s2 :
  currentBlob s1 = currentBlob s2 -> currentFilename s1 = currentFilename s2 ->
  downloadBtn_disabled s1 = downloadBtn_disabled s2 ->
  previewContainer_display s1 = previewContainer_display s2 ->
  renderer s1 = renderer s2 -> loaded s1 = loaded s2 ->
  let a := step s1 (Receive ev) in
  let b := step s2 (Receive ev) in
  currentBlob a = currentBlob b /\ currentFilename a = currentFilename b /\
  downloadBtn_disabled a = downloadBtn_disabled b /\
  previewContainer_display a = previewContainer_display b /\
  renderer a = renderer b /\ loaded a = loaded b.
Proof.
  intros Hb Hf Hd Hp Hr Hl a b. subst a b.
  crush_step; cbn in *; repeat split; congruence.
Qed.

(** X11. The handshake and the export do not wait for each other: a ready
    message that the handler takes to its end and an [export-stl] message,
    both from the trusted origin, handled in either order, leave the same
    ready flag, stored artifact, buttons, preview, viewer input and posted
    messages; an export that comes first is stored all the same. Of what
    the page shows only the status line can tell the order; with the ready
    message last it reads the init status. *)
Theorem ready_and_export_commute (r e : MessageEvent) (s : State) :
  ready_message r -> tagged "export-stl" e ->
  let a := step (step s (Receive r)) (Receive e) in
  let b := step (step s (Receive e)) (Receive r) in
  session a = session b /\ posted a = posted b /\
  getStlBtn_disabled a = getStlBtn_disabled b /\
  downloadBtn_disabled a = downloadBtn_disabled b /\
  previewContainer_display a = previewContainer_display b /\
  renderer a = renderer b /\ loaded a = loaded b /\
  downloads a = downloads b /\ alerts a = alerts b /\
  statusText b = init_status.
Proof.
  intros Hr He a b.
  pose proof (ready_step_fields r s Hr) as R1.
  pose proof (export_step_fields e (step s (Receive r)) He) as E1.
  pose proof (export_step_fields e s He) as E2.
  pose proof (ready_step_fields r (step s (Receive e)) Hr) as R2.
  cbv zeta in R1, E1, E2, R2.
  destruct R1 as (R1s & R1p & R1c & R1g & R1d & R1v & R1r & R1l & R1w & R1a & _).
  unfold session in R1s. injection R1s as R1i R1b R1f.
  assert (C := export_step_artifact_congr e (step s (Receive r)) s
                 R1b R1f R1d R1v R1r R1l).
  cbv zeta in C. fold a in C, E1.
  destruct C as (Cb & Cf & Cd & Cv & Cr & Cl).
  destruct E1 as (E1i & E1p & E1c & E1g & E1a & E1w).
  destruct E2 as (E2i & E2p & E2c & E2g & E2a & E2w).
  fold b in R2.
  destruct R2 as (R2s & R2p & R2c & R2g & R2d & R2v & R2r & R2l & R2w & R2a & R2t).
  unfold session in R2s |- *. injection R2s as R2i R2b R2f.
  rewrite E2c, E2p in R2p.
  repeat split; congruence.
Qed.

Lemma ready_and_export_commute_witness :
  let r := ready_event "1.0" in
  let e := export_event (VObj [("blob", VBlob (mkBlob [Byte.x73] "model/stl"))]) in
  let a := step (step fresh_page (Receive r)) (Receive e) in
  let b := step (step fresh_page (Receive e)) (Receive r) in
  session a = session b /\ posted a = posted b /\
  getStlBtn_disabled a = getStlBtn_disabled b /\
  downloadBtn_disabled a = downloadBtn_disabled b /\
  previewContainer_display a = previewContainer_display b /\
  renderer a = renderer b /\ loaded a = loaded b /\
  downloads a = downloads b /\ alerts a = alerts b /\
  statusText b = init_status.
Proof.
  exact (ready_and_export_commute (ready_event "1.0")
           (export_event (VObj [("blob", VBlob (mkBlob [Byte.x73] "model/stl"))]))
           fresh_page (ready_event_message "1.0") (export_event_tagged _)).
Defined.

(** *** Messages from other origins *)

Lemma erase_step_congr s1 s2 t :
  script_erase s1 = script_erase s2 ->
  script_erase (step s1 t) = script_erase (step s2 t).
Proof.
  destruct s1, s2. unfold script_erase, set_console. cbn.
  intros H. injection H as. subst.
  destruct t as [ev | | | present]; crush_step; reflexivity.
Qed.

Lemma erase_untrusted_step s t :
  script_trusted t = false -> script_erase (step s t) = script_erase s.
Proof.
  destruct t as [ev | | | present]; cbn [script_trusted]; try discriminate.
  intros H. unfold step. cbn [listener]. unfold handleMessage. rewrite H.
  cbn [negb]. destruct (truthy (data ev) && truthy (get (data ev) "type"));
    reflexivity.
Qed.

Lemma erase_run_filter ts : forall s1 s2,
  script_erase s1 = script_erase s2 ->
  script_erase (run ts s1) = script_erase (run (filter script_trusted ts) s2).
Proof.
  induction ts as [| t ts IH]; intros s1 s2 H; [exact H |].
  cbn [filter]. destruct (script_trusted t) eqn:Ht; cbn [run fold_left].
  - apply IH, erase_step_congr, H.
  - apply IH. rewrite (erase_untrusted_step s1 t Ht). exact H.
Qed.

(** X12. Messages from other origins have no say: take them out of
    whatever the page receives and the user clicks, and the page ends in the
    same state, variables, page elements, event log, posted messages,
    alerts and downloads alike; the console, where the script notes an
    ignored message, is the one thing that can differ. *)
Theorem untrusted_messages_do_not_interfere (ts : list Trigger) (s : State) :
  script_erase (run ts s) = script_erase (run (filter script_trusted ts) s).
Proof. apply erase_run_filter. reflexivity. Qed.

(** *** The ready flag and the viewer, event by event *)

Ltac settle :=
  cbn;
  repeat match goal with
  | H : ?x = _ |- context [?x] => progress rewrite H
  end;
  repeat match goal with
  | |- context [is_str ?v ?lit] =>
      let E := fresh "E" in
      destruct (is_str v lit) eqn:E;
      [pose proof (is_str_renders _ _ E);
       assert (truthy v = true)
         by (apply (is_str_truthy v lit); [discriminate | exact E]);
       try pose proof (is_str_ready_not_export _ E) |]
  end;
  cbn; rewrite ?andb_false_r, ?andb_true_r, ?orb_false_r, ?orb_true_r,
         ?app_nil_r;
  try reflexivity; try congruence; try (cbn in *; congruence).

Lemma step_isReady_eq s t :
  isReady (step s t) = isReady s || script_ready_trigger t.
Proof.
  destruct t as [ev | | | present]; cbn [script_ready_trigger];
    [| crush_step; settle ..].
  rewrite receive_step. unfold payload_of.
  destruct (origin ev =? CADIT_ORIGIN); [| break_step; settle].
  destruct (truthy (get (data ev) "type")) eqn:Ht; [| settle].
  destruct (to_string_ok (get (data ev) "type")) eqn:Hp; [| settle].
  destruct (loggable (get (data ev) "payload")) eqn:Hl; [| settle].
  destruct (is_str (get (data ev) "type") "ready") eqn:Hr;
    [| destruct (is_str (get (data ev) "type") "export-stl")];
    open_step; eval_sent; break_step; settle.
Qed.

(** X17. The ready flag is set by a ready message from the trusted origin
    whose payload can be logged, and by nothing else: after any sequence of
    messages and clicks it is set exactly when it was set before or one of
    the messages was such a ready message. *)
Theorem ready_flag_is_set_by_ready_messages (ts : list Trigger) (s : State) :
  isReady (run ts s) = isReady s || existsb script_ready_trigger ts.
Proof.
  revert s. induction ts as [| t ts IH]; intros s.
  - cbn. rewrite orb_false_r. reflexivity.
  - cbn [existsb]. rewrite run_cons, IH, step_isReady_eq, orb_assoc. reflexivity.
Qed.

Lemma step_loaded s t : loaded (step s t) = loaded s ++ script_loaded_of t.
Proof.
  destruct t as [ev | | | present]; cbn [script_loaded_of];
    [| crush_step; settle ..].
  rewrite receive_step. unfold payload_of.
  destruct (origin ev =? CADIT_ORIGIN); [| break_step; settle].
  destruct (truthy (get (data ev) "type")) eqn:Ht; [| settle].
  destruct (to_string_ok (get (data ev) "type")) eqn:Hp; [| settle].
  destruct (loggable (get (data ev) "payload")) eqn:Hl; [| settle].
  destruct (is_str (get (data ev) "type") "ready") eqn:Hr.
  - rewrite (is_str_ready_not_export _ Hr).
    open_step; eval_sent; break_step; settle.
  - destruct (is_str (get (data ev) "type") "export-stl");
      [| open_step; settle].
    cbn [andb]. unfold handleExportStl, opt_get.
    destruct (nullish (get (data ev) "payload")); cbn [truthy negb];
      [open_step; settle |].
    destruct (get (get (data ev) "payload") "blob") eqn:Hb;
      cbn [truthy negb]; open_step; break_step; settle.
Qed.

(** X18. The viewer is given the exports and nothing else: whatever the
    page receives and the user clicks, the blobs handed to [loadSTL] are, in
    order and once each, the Blobs of the [export-stl] messages from the
    trusted origin whose payload can be logged. *)
Theorem viewer_is_given_the_exports (ts : list Trigger) (s : State) :
  loaded (run ts s) = loaded s ++ flat_map script_loaded_of ts.
Proof.
  revert s. induction ts as [| t ts IH]; intros s.
  - cbn. rewrite app_nil_r. reflexivity.
  - cbn [flat_map]. rewrite run_cons, IH, step_loaded, app_assoc. reflexivity.
Qed.

(** *** The two slips of the handlers, seen from the page *)

(** X20. A message from the trusted origin whose [type] is truthy and can
    be printed, is neither ['ready'] nor ['export-stl'], and whose payload
    can be logged: it decodes, the handler returns, the message is written
    to the console and to the event log and the console notes the unknown
    type; no variable and no page element changes and nothing is posted. *)
Theorem unknown_tag_ignored (ev : MessageEvent) (s : State) :
  origin ev = CADIT_ORIGIN ->
  truthy (get (data ev) "type") = true ->
  to_string_ok (get (data ev) "type") = true ->
  loggable (payload_of ev) = true ->
  is_str (get (data ev) "type") "ready" = false ->
  is_str (get (data ev) "type") "export-stl" = false ->
  decode (data ev) = Message (get (data ev) "type") (payload_of ev) /\
  exists s',
    handleMessage ev s = Ok tt s' /\
    view s' = view s /\
    posted s' = posted s /\
    eventLog s' = received_entry ev :: eventLog s /\
    console s' =
      console s ++
      [received_line ev;
       mkConsole LLog
         [CText [Lit "Unknown message type:"]; CVal (get (data ev) "type")]].
Proof.
  intros Ho Ht Hp Hl Hr He. split; [apply decode_truthy, Ht |].
  rewrite (handleMessage_dispatch ev s Ho Ht Hp Hl), Hr, He.
  eexists; split; [reflexivity |]. cbn. rewrite <- app_assoc. repeat split.
Qed.

Lemma unknown_tag_ignored_witness :
  let ev := mkEvent CADIT_ORIGIN (encode (VStr "import-stl") VNull) in
  decode (data ev) = Message (VStr "import-stl") VNull /\
  exists s',
    handleMessage ev fresh_page = Ok tt s' /\
    view s' = view fresh_page /\
    posted s' = posted fresh_page /\
    eventLog s' = received_entry ev :: eventLog fresh_page /\
    console s' =
      console fresh_page ++
      [received_line ev;
       mkConsole LLog [CText [Lit "Unknown message type:"]; CVal (VStr "import-stl")]].
Proof.
  exact (unknown_tag_ignored (mkEvent CADIT_ORIGIN (encode (VStr "import-stl") VNull))
           fresh_page eq_refl eq_refl eq_refl eq_refl eq_refl eq_refl).
Defined.

(** X21. A ready message from the trusted origin whose payload can be
    logged but whose version cannot be converted to a string (an object
    with a [toString] property of its own, say): [handleReady] sets the
    ready flag and throws at line 214. The export button stays as it was,
    no init message is sent and the status line keeps its text. *)
Theorem ready_with_unprintable_version (ev : MessageEvent) (s : State) :
  tagged "ready" ev ->
  loggable (payload_of ev) = true ->
  to_string_ok (version_of (payload_of ev)) = false ->
  let s' := step s (Receive ev) in
  returns (handleMessage ev s) = false /\
  isReady s' = true /\
  getStlBtn_disabled s' = getStlBtn_disabled s /\
  posted s' = posted s /\
  statusText s' = statusText s.
Proof.
  intros H Hl Hv s'. pose proof (tagged_truthy _ _ H ltac:(discriminate)) as Ht.
  pose proof (tagged_renders _ _ H) as Hr.
  destruct H as [Ho Hty]. subst s'. unfold step. cbn [listener].
  rewrite (handleMessage_dispatch ev s Ho Ht Hr Hl), Hty. eval_is_str.
  unfold handleReady, version_of in *.
  cbv beta iota delta [bind render modify ret throw]. rewrite Hv.
  repeat split.
Qed.

Lemma ready_with_unprintable_version_witness :
  let ev := mkEvent CADIT_ORIGIN
              (encode (VStr "ready")
                 (VObj [("version", VObj [("toString", VNum 1)])])) in
  let s' := step fresh_page (Receive ev) in
  returns (handleMessage ev fresh_page) = false /\
  isReady s' = true /\
  getStlBtn_disabled s' = true /\
  posted s' = [] /\
  statusText s' = [Lit "Waiting for CADit..."].
Proof.
  exact (ready_with_unprintable_version
           (mkEvent CADIT_ORIGIN
              (encode (VStr "ready")
                 (VObj [("version", VObj [("toString", VNum 1)])])))
           fresh_page (conj eq_refl eq_refl) eq_refl eq_refl).
Defined.

End ScriptCoverage.

(** ** The second copy, further *)
Module Part000Coverage.
Import Part000 Part000Facts.

Ltac settle :=
  cbn;
  repeat match goal with
  | H : ?x = _ |- context [?x] => progress rewrite H
  end;
  repeat match goal with
  | |- context [is_str ?v ?lit] =>
      let E := fresh "E" in
      destruct (is_str v lit) eqn:E;
      [pose proof (is_str_renders _ _ E);
       assert (truthy v = true)
         by (apply (is_str_truthy v lit); [discriminate | exact E]);
       try pose proof (is_str_ready_not_export _ E) |]
  end;
  cbn; rewrite ?andb_false_r, ?andb_true_r, ?orb_false_r, ?orb_true_r,
         ?app_nil_r;
  try reflexivity; try congruence; try (cbn in *; congruence).

Lemma part000_untrusted_step s t : part000_trusted t = false -> step s t = s.
Proof.
  destruct t as [ev | | | present]; cbn [part000_trusted]; try discriminate.
  intros H. unfold step. cbn [listener]. unfold handleMessage. rewrite H.
  reflexivity.
Qed.

(** X13. In the second copy a message from another origin is no event at
    all: taken out of whatever the page receives and the user clicks, the
    page ends in the very same state, console included. *)
Theorem part000_untrusted_messages_are_no_ops (ts : list Trigger) (s : State) :
  run ts s = run (filter part000_trusted ts) s.
Proof.
  revert s. induction ts as [| t ts IH]; intros s; [reflexivity |].
  cbn [filter]. destruct (part000_trusted t) eqn:Ht; cbn [run fold_left].
  - apply IH.
  - rewrite (part000_untrusted_step s t Ht). apply IH.
Qed.

Lemma part000_step_gated s t :
  Forall (fun p => p = init_message \/ (isReady s = true /\ p = get_stl_message))
    (posted s) ->
  Forall (fun p => p = init_message \/
                   (isReady (step s t) = true /\ p = get_stl_message))
    (posted (step s t)).
Proof.
  intros H.
  assert (Hold : forall r : bool, (isReady s = true -> r = true) ->
            Forall (fun p => p = init_message \/ (r = true /\ p = get_stl_message))
              (posted s)).
  { intros r Hr. eapply Forall_impl; [| exact H].
    intros p [Hp | [Hi Hp]]; [left; exact Hp | right; split; [apply Hr, Hi | exact Hp]]. }
  destruct t as [ev | | | present]; crush_step; cbn;
    try (apply Hold; intros; first [assumption | reflexivity | discriminate]);
    (apply Forall_app; split;
     [ apply Hold; intros; first [assumption | reflexivity | discriminate]
     | constructor;
       [ first [left; reflexivity | right; split; [assumption | reflexivity]]
       | constructor ] ]).
Qed.

(** X14. In the second copy, where the init message can also be sent from
    its button at any time, the ready flag still gates the export request:
    the page posts the init message and the [get-stl] message and no other,
    and wherever a [get-stl] message has been posted the ready flag is
    set. *)
Theorem part000_get_stl_needs_ready
  (ts : list Trigger) (cw g : bool) (status : text) (log : list LogEntry) :
  let s := run ts (page_loaded cw g status log) in
  Forall (fun p => p = init_message \/ (isReady s = true /\ p = get_stl_message))
    (posted s).
Proof.
  apply (part000_run_invariant
           (fun s => Forall (fun p => p = init_message \/
                                      (isReady s = true /\ p = get_stl_message))
                       (posted s))).
  - exact part000_step_gated.
  - constructor.
Qed.

Lemma part000_step_downloads s t :
  downloads (step s t) = downloads s ++ part000_download_of t.
Proof.
  destruct t as [ev | | | present]; cbn [part000_download_of];
    [| crush_step; settle ..].
  rewrite part000_receive_step. unfold payload_of.
  destruct (origin ev =? CADIT_ORIGIN); [| settle].
  destruct (nullish (data ev)) eqn:Hn.
  { rewrite (nullish_get _ "type" Hn). settle. }
  destruct (truthy (get (data ev) "type")) eqn:Ht; [| settle].
  destruct (loggable (get (data ev) "payload")) eqn:Hl; cbn [andb]; [| settle].
  destruct (to_string_ok (get (data ev) "type")) eqn:Hp; [| settle].
  destruct (is_str (get (data ev) "type") "ready") eqn:Hr.
  - rewrite (is_str_ready_not_export _ Hr). cbn [andb].
    open_step; eval_sent; break_step; settle.
  - destruct (is_str (get (data ev) "type") "export-stl");
      [| open_step; settle].
    cbn [andb]. unfold handleExportStl, opt_get.
    destruct (nullish (get (data ev) "payload")); cbn [truthy negb];
      [open_step; break_step; settle |].
    destruct (get (get (data ev) "payload") "blob") eqn:Hb;
      cbn [truthy negb]; open_step; break_step; settle.
Qed.

(** X15. In the second copy the downloads are the exports: whatever the page
    receives and the user clicks, the downloads started are, in order and
    once each, the Blobs of the [export-stl] messages from the trusted
    origin whose payload can be logged, each under the filename of its
    message or ['design.stl'], where that can be converted to a string; no
    other trigger starts one. *)
Theorem part000_downloads_are_the_exports (ts : list Trigger) (s : State) :
  downloads (run ts s) = downloads s ++ flat_map part000_download_of ts.
Proof.
  revert s. induction ts as [| t ts IH]; intros s.
  - cbn. rewrite app_nil_r. reflexivity.
  - cbn [flat_map]. rewrite part000_run_cons, IH, part000_step_downloads, app_assoc.
    reflexivity.
Qed.

Lemma part000_step_isReady s t :
  isReady (step s t) = isReady s || part000_ready_trigger t.
Proof.
  destruct t as [ev | | | present]; cbn [part000_ready_trigger];
    [| crush_step; settle ..].
  rewrite part000_receive_step. unfold payload_of.
  destruct (origin ev =? CADIT_ORIGIN); [| settle].
  destruct (nullish (data ev)) eqn:Hn.
  { rewrite (nullish_get _ "type" Hn). settle. }
  destruct (truthy (get (data ev) "type")) eqn:Ht; [| settle].
  destruct (loggable (get (data ev) "payload")) eqn:Hl; cbn [andb]; [| settle].
  destruct (to_string_ok (get (data ev) "type")) eqn:Hp; [| settle].
  destruct (is_str (get (data ev) "type") "ready") eqn:Hr;
    [| destruct (is_str (get (data ev) "type") "export-stl")];
    open_step; eval_sent; break_step; settle.
Qed.

(** X19. In the second copy too the ready flag is set by a ready message
    from the trusted origin whose payload can be logged, and by nothing
    else; in particular the init button, which sends the init message by
    hand, does not set it. *)
Theorem part000_ready_flag_is_set_by_ready_messages (ts : list Trigger) (s : State) :
  isReady (run ts s) = isReady s || existsb part000_ready_trigger ts.
Proof.
  revert s. induction ts as [| t ts IH]; intros s.
  - cbn. rewrite orb_false_r. reflexivity.
  - cbn [existsb]. rewrite part000_run_cons, IH, part000_step_isReady, orb_assoc.
    reflexivity.
Qed.

End Part000Coverage.

(** ** The two copies side by side *)

Lemma forallb_eq_in {A} (f g : A -> bool) l :
  (forall x, In x l -> f x = g x) -> forallb f l = forallb g l.
Proof.
  induction l as [| x l IH]; intros H; cbn; [reflexivity |].
  rewrite (H x (or_introl eq_refl)), IH; [reflexivity |].
  intros y Hy. apply H. right. exact Hy.
Qed.

Lemma json_ok_subst_same p v d :
  json_ok p = false \/ json_ok v = true ->
  json_ok (subst p d v) = json_ok v.
Proof.
  intros H. destruct (json_ok v) eqn:E.
  - apply json_ok_subst_true, E.
  - destruct H as [H | H]; [| discriminate H].
    apply json_ok_subst_false; assumption.
Qed.

Lemma json_ok_spread_with fields k v :
  json_ok v = true -> json_ok (lookup k fields) = true ->
  forallb (fun kv => json_ok (snd kv)) (spread_with fields k v) =
  forallb (fun kv => json_ok (snd kv)) fields.
Proof.
  intros Hv. induction fields as [| [k' v'] rest IH]; cbn; intros Hl.
  - rewrite Hv. reflexivity.
  - destruct (k' =? k); cbn.
    + rewrite Hv, Hl. reflexivity.
    + rewrite (IH Hl). reflexivity.
Qed.

(** The spread copy of an object can be stringified exactly when the object
    can. *)
Lemma json_ok_spread_props fields :
  forallb (fun kv => json_ok (snd kv)) (spread_props (VObj fields)) =
  json_ok (VObj fields).
Proof.
  unfold spread_props. cbn [own_props json_ok].
  rewrite (forallb_map_comp (fun kv => json_ok (snd kv))). cbn [snd].
  apply forallb_eq_in. intros [k v] Hin. cbn [snd].
  rewrite json_ok_lift. apply json_ok_subst_same.
  destruct (json_ok (VObj fields)) eqn:E; [right | left; reflexivity].
  cbn [json_ok] in E. rewrite forallb_forall in E. apply (E (k, v) Hin).
Qed.

Lemma displayData_truthy d : truthy (Script.displayData d) = truthy d.
Proof.
  unfold Script.displayData. destruct (truthy d) eqn:E; [| exact E].
  destruct (get d "blob"); try exact E. reflexivity.
Qed.

(** What [script.js] displays for a payload that is no array can be
    stringified exactly when the payload can. *)
Lemma displayData_json_ok d :
  is_array d = false -> json_ok (Script.displayData d) = json_ok d.
Proof.
  intros Ha. unfold Script.displayData. destruct (truthy d); [| reflexivity].
  destruct (get d "blob") eqn:Hb; try reflexivity.
  destruct d as [| | | | | | b0 | items named | fields | n];
    try discriminate Ha; try (cbn in Hb; discriminate Hb).
  cbn [json_ok]. rewrite json_ok_spread_with.
  - apply json_ok_spread_props.
  - reflexivity.
  - unfold spread_props.
    rewrite (lookup_map_snd (fun x => lift 0 (subst (VObj fields) 0 x)))
      by reflexivity.
    cbn [own_props]. rewrite json_ok_lift.
    change (subst (VObj fields) 0 (lookup "blob" fields))
      with (get (VObj fields) "blob").
    rewrite Hb. reflexivity.
Qed.

Lemma copies_step_agree c s p :
  plain_payload c ->
  Script.isReady s = Part000.isReady p /\
  Script.contentWindow s = Part000.contentWindow p /\
  map message (Script.posted s) = map message (Part000.posted p) /\
  Script.alerts s = Part000.alerts p /\
  Script.getStlBtn_disabled s = Part000.getStlBtn_disabled p ->
  let s' := Script.step s (script_trigger c) in
  let p' := Part000.step p (part000_trigger c) in
  Script.isReady s' = Part000.isReady p' /\
  Script.contentWindow s' = Part000.contentWindow p' /\
  map message (Script.posted s') = map message (Part000.posted p') /\
  Script.alerts s' = Part000.alerts p' /\
  Script.getStlBtn_disabled s' = Part000.getStlBtn_disabled p'.
Proof.
  intros Hplain (Hr & Hc & Hp & Ha & Hg).
  destruct s, p. cbn in Hr, Hc, Hp, Ha, Hg. subst.
  destruct c as [[|] d | | present]; cbn [script_trigger part000_trigger];
    cbn [plain_payload] in Hplain;
    cbv beta iota zeta delta
      [Script.step Script.listener Script.handleMessage Script.handleReady
       Script.sendInit Script.sendMessage Script.handleExportStl
       Script.requestStl Script.logEvent Script.loadSTL Script.initViewer
       Script.console_out Script.alert Script.postMessage
       Part000.step Part000.listener Part000.handleMessage Part000.handleReady
       Part000.sendInit Part000.sendMessage Part000.handleExportStl
       Part000.requestStl Part000.logEvent
       Part000.console_out Part000.alert Part000.postMessage
       bind gets modify ret throw final render stringify negb origin data
       Script.set_isReady Script.set_currentBlob Script.set_currentFilename
       Script.set_renderer Script.set_contentWindow
       Script.set_getStlBtn_disabled Script.set_downloadBtn_disabled
       Script.set_statusText Script.set_previewContainer_display
       Script.set_eventLog Script.set_posted Script.set_console
       Script.set_alerts Script.set_loaded Script.set_downloads
       Script.isReady Script.currentBlob Script.currentFilename
       Script.renderer Script.contentWindow Script.getStlBtn_disabled
       Script.downloadBtn_disabled Script.statusText
       Script.previewContainer_display Script.eventLog Script.posted
       Script.console Script.alerts Script.loaded Script.downloads
       Part000.set_isReady Part000.set_contentWindow
       Part000.set_getStlBtn_disabled Part000.set_statusText
       Part000.set_eventLog Part000.set_posted Part000.set_console
       Part000.set_alerts Part000.set_downloads
       Part000.isReady Part000.contentWindow Part000.getStlBtn_disabled
       Part000.statusText Part000.eventLog Part000.posted Part000.console
       Part000.alerts Part000.downloads];
    rewrite ?String.eqb_refl;
    change ("https://example.org" =? Script.CADIT_ORIGIN) with false;
    change ("https://example.org" =? Part000.CADIT_ORIGIN) with false;
    cbv beta iota;
    try (destruct (decode d) as [type payload | |] eqn:Hd;
         [ apply decode_Message_inv in Hd; destruct Hd as (-> & -> & _);
           rewrite ?displayData_truthy, ?(displayData_json_ok _ Hplain)
         | | ]);
    repeat match goal with
    | |- context [to_string_ok (VStr ?a)] =>
        change (to_string_ok (VStr a)) with true
    | |- context [Script.displayData Script.init_payload] =>
        change (Script.displayData Script.init_payload) with Script.init_payload
    | |- context [Script.displayData VNull] =>
        change (Script.displayData VNull) with VNull
    | |- context [truthy (VObj ?f)] => change (truthy (VObj f)) with true
    | |- context [json_ok Script.init_payload] =>
        change (json_ok Script.init_payload) with true
    | |- context [json_ok Part000.init_payload] =>
        change (json_ok Part000.init_payload) with true
    | |- context [truthy VNull] => change (truthy VNull) with false
    end;
    repeat (cbv beta iota;
            match goal with
            | |- context [match ?x with _ => _ end] =>
                lazymatch x with
                | context [match _ with _ => _ end] => fail
                | _ => destruct x eqn:?
                end
            end);
    cbn; rewrite ?map_app, ?Hp; cbn; repeat split; congruence.
Qed.

(** X16. The two copies of the script speak the same protocol: given the
    same messages (each from the origin the copy trusts, or from another)
    whose payload is no array, the same clicks on the export button and the
    same changes of the iframe, they end with the same ready flag and the
    same state of the export button, have raised the same alerts and have
    posted the same messages in the same order, each to its own trusted
    origin. *)
Theorem copies_agree_on_protocol
  (cs : list Common) (cw g d : bool) (status1 status2 : text) (display : string)
  (log1 log2 : list LogEntry) :
  Forall plain_payload cs ->
  let s := Script.run (map script_trigger cs)
             (Script.page_loaded cw g d status1 display log1) in
  let p := Part000.run (map part000_trigger cs)
             (Part000.page_loaded cw g status2 log2) in
  Script.isReady s = Part000.isReady p /\
  map message (Script.posted s) = map message (Part000.posted p) /\
  Script.alerts s = Part000.alerts p /\
  Script.getStlBtn_disabled s = Part000.getStlBtn_disabled p.
Proof.
  intros Hcs. cbv zeta.
  assert (H : forall s p,
             Script.isReady s = Part000.isReady p /\
             Script.contentWindow s = Part000.contentWindow p /\
             map message (Script.posted s) = map message (Part000.posted p) /\
             Script.alerts s = Part000.alerts p /\
             Script.getStlBtn_disabled s = Part000.getStlBtn_disabled p ->
             Script.isReady (Script.run (map script_trigger cs) s) =
               Part000.isReady (Part000.run (map part000_trigger cs) p) /\
             Script.contentWindow (Script.run (map script_trigger cs) s) =
               Part000.contentWindow (Part000.run (map part000_trigger cs) p) /\
             map message (Script.posted (Script.run (map script_trigger cs) s)) =
               map message (Part000.posted (Part000.run (map part000_trigger cs) p)) /\
             Script.alerts (Script.run (map script_trigger cs) s) =
               Part000.alerts (Part000.run (map part000_trigger cs) p) /\
             Script.getStlBtn_disabled (Script.run (map script_trigger cs) s) =
               Part000.getStlBtn_disabled (Part000.run (map part000_trigger cs) p)).
  { induction Hcs as [| c cs Hc _ IH]; intros s p R; [exact R |].
    cbn [map Script.run Part000.run fold_left].
    apply IH. apply (copies_step_agree c s p Hc R). }
  destruct (H (Script.page_loaded cw g d status1 display log1)
              (Part000.page_loaded cw g status2 log2)) as (A & _ & B & C & D).
  - repeat split.
  - repeat split; assumption.
Qed.

(** A handshake, an export with a Blob, a message from elsewhere and two
    clicks, the second without a window. *)
Lemma copies_agree_on_protocol_witness :
  let cs :=
    [CGetStl;
     CMessage true (encode (VStr "ready") (VObj [("version", VStr "1.0")]));
     CMessage false (encode (VStr "ready") VNull);
     CGetStl;
     CMessage true
       (encode (VStr "export-stl")
          (VObj [("blob", VBlob (mkBlob [Byte.x73] "model/stl"));
                 ("size", VBigInt 1)]));
     CFrame false;
     CGetStl] in
  let s := Script.run (map script_trigger cs) Script.fresh_page in
  let p := Part000.run (map part000_trigger cs) Part000.fresh_page in
  Script.isReady s = Part000.isReady p /\
  map message (Script.posted s) = map message (Part000.posted p) /\
  Script.alerts s = Part000.alerts p /\
  Script.getStlBtn_disabled s = Part000.getStlBtn_disabled p.
Proof.
  apply (copies_agree_on_protocol
           [CGetStl;
            CMessage true (encode (VStr "ready") (VObj [("version", VStr "1.0")]));
            CMessage false (encode (VStr "ready") VNull);
            CGetStl;
            CMessage true
              (encode (VStr "export-stl")
                 (VObj [("blob", VBlob (mkBlob [Byte.x73] "model/stl"));
                        ("size", VBigInt 1)]));
            CFrame false;
            CGetStl]
           true true true [Lit "Waiting for CADit..."] [Lit "Waiting for CADit..."]
           "none" [] []).
  repeat constructor.
Defined.
